(** * elevate-romania: the elevation pipeline of [filter.py], [enrich.py],
    [validate.py], [upload.py] and the upload branch of [main.py].

    The Python sources are embedded shallowly.  An OSM element is a JSON
    object used as a struct, so it becomes a record whose fields are the
    keys the code reads, each optional because the code tests for their
    presence; the [tags] dictionary is a finite map.  Network effects (the
    elevation provider, the OSM write client) are state passing over a log
    of the calls made, answered by an oracle.  Console output is not
    modelled. *)

From Stdlib Require Import ZArith String List Bool Lia.
From stdpp Require Import base option list gmap strings pretty.
Import ListNotations.

Local Open Scope string_scope.
Local Open Scope Z_scope.

(** ** Python values *)

(** The numbers of the JSON snapshots (Python [int] and [float]) with the
    three built-in operations the pipeline applies to them.  [num_gt] is
    not a field: on Python numbers [a > b] is [b < a]. *)
Class PyNumber := {
  num : Type;
  num_lt : num -> num -> bool;      (* a < b *)
  num_of_Z : Z -> num;              (* an integer literal *)
  num_round1 : num -> num;          (* round(a, 1) *)
  num_str : num -> string           (* str(a), also the f-string rendering *)
}.

Definition num_gt `{PyNumber} (a b : num) : bool := num_lt b a.

(** Python integers: [round(n, 1)] of an [int] is the same [int]. *)
Definition PyInt : PyNumber :=
  {| num := Z; num_lt := Z.ltb; num_of_Z := fun n => n;
     num_round1 := fun n => n; num_str := pretty |}.

(** What the proofs use of [<] on Python numbers: it is a strict order
    (with a NaN every comparison is false, which satisfies both laws). *)
Class PyNumberOrder (PN : PyNumber) : Prop := {
  num_lt_irrefl : forall a : num, num_lt a a = false;
  num_lt_trans : forall a b c : num,
      num_lt a b = true -> num_lt b c = true -> num_lt a c = true
}.

(** The exceptions the modelled code can raise. *)
Inductive exn : Type :=
| KeyError (key : string)
| ValueError (msg : string).

Inductive result (A : Type) : Type :=
| Ok (a : A)
| Raise (e : exn).
Arguments Ok {A} a.
Arguments Raise {A} e.

(** Code with effects on a world [W]: the effects performed before an
    exception stay performed. *)
Definition M (W A : Type) : Type := W -> result A * W.

Definition ret {W A} (a : A) : M W A := fun w => (Ok a, w).

Definition raise {W A} (e : exn) : M W A := fun w => (Raise e, w).

Definition bind {W A B} (c : M W A) (k : A -> M W B) : M W B :=
  fun w => match c w with
           | (Ok a, w') => k a w'
           | (Raise e, w') => (Raise e, w')
           end.

Notation "x <- c ;; k" := (bind c (fun x => k))
  (at level 100, c at next level, right associativity).

(** Truthiness ([not x]) of the optional values the code tests. *)
Definition truthy_int (x : option Z) : bool :=
  match x with
  | Some n => negb (n =? 0)
  | None => false
  end.

Definition truthy_str (x : option string) : bool :=
  match x with
  | Some s => negb (String.eqb s "")
  | None => false
  end.

(** Presence of an optional key of a JSON object. *)
Definition present {A} (x : option A) : bool :=
  match x with
  | Some _ => true
  | None => false
  end.

(** [k in d] for a dictionary with string keys. *)
Definition dict_has {V} (k : string) (d : gmap string V) : bool :=
  match d !! k with
  | Some _ => true
  | None => false
  end.

(** ** Element model *)

Section Pipeline.
Context {PN : PyNumber}.

(** The [center] object Overpass attaches to a way. *)
Record center : Type := {
  c_lat : option num;
  c_lon : option num
}.

(** An element of the snapshots.  [None] is an absent key. *)
Record Element : Type := {
  e_type : option string;                 (* "type" *)
  e_id : option Z;                        (* "id" *)
  e_lat : option num;                     (* "lat" *)
  e_lon : option num;                     (* "lon" *)
  e_center : option center;               (* "center" *)
  e_tags : option (gmap string string);   (* "tags" *)
  e_elevation_fetched : option num        (* "elevation_fetched" *)
}.

(** [element["type"]]: raises when the key is absent. *)
Definition getitem_type (element : Element) : result string :=
  match e_type element with
  | Some t => Ok t
  | None => Raise (KeyError "type")
  end.

(** [bool(element)] of the dictionary: false only when it has no key. *)
Definition dict_truthy (element : Element) : bool :=
  present (e_type element) || present (e_id element)
  || present (e_lat element) || present (e_lon element)
  || present (e_center element) || present (e_tags element)
  || present (e_elevation_fetched element).

(** ** filter.py *)

Definition has_elevation (element : Element) : bool :=
  match e_tags element with
  | Some tags => dict_has "ele" tags
  | None => false
  end.

Definition is_alpine_hut (element : Element) : bool :=
  match e_tags element with
  | Some tags =>
      match tags !! "tourism" with
      | Some v => String.eqb v "alpine_hut"
      | None => false
      end
  | None => false
  end.

Definition get_coordinates (element : Element)
  : result (option num * option num) :=
  match getitem_type element with
  | Raise e => Raise e
  | Ok t =>
      if String.eqb t "node" then Ok (e_lat element, e_lon element)
      else if String.eqb t "way" then
        match e_center element with
        | Some c => Ok (c_lat c, c_lon c)
        | None => Ok (None, None)
        end
      else Ok (None, None)
  end.

(** The loop of [filter_missing_elevation], [missing_ele] being the list
    built so far. *)
Fixpoint filter_missing_elevation_loop
    (elements missing_ele : list Element) : result (list Element) :=
  match elements with
  | [] => Ok missing_ele
  | element :: rest =>
      if negb (has_elevation element) then
        match get_coordinates element with
        | Raise e => Raise e
        | Ok (Some _, Some _) =>
            filter_missing_elevation_loop rest (missing_ele ++ [element])
        | Ok _ => filter_missing_elevation_loop rest missing_ele
        end
      else filter_missing_elevation_loop rest missing_ele
  end.

Definition filter_missing_elevation (elements : list Element)
  : result (list Element) :=
  filter_missing_elevation_loop elements [].

(** The loop of [prioritize_alpine_huts] with its two accumulators. *)
Fixpoint prioritize_alpine_huts_loop
    (elements alpine_huts others : list Element)
  : list Element * list Element :=
  match elements with
  | [] => (alpine_huts, others)
  | element :: rest =>
      if is_alpine_hut element
      then prioritize_alpine_huts_loop rest (alpine_huts ++ [element]) others
      else prioritize_alpine_huts_loop rest alpine_huts (others ++ [element])
  end.

Definition prioritize_alpine_huts (elements : list Element)
  : list Element * list Element :=
  prioritize_alpine_huts_loop elements [] [].

(** A coordinate resolves when [get_coordinates] returns two values. *)
Definition resolves (element : Element) : bool :=
  match get_coordinates element with
  | Ok (Some _, Some _) => true
  | _ => false
  end.

(** The elements [filter_missing_elevation] is meant to retain. *)
Definition missing_and_resolvable (element : Element) : bool :=
  negb (has_elevation element) && resolves element.

(** The raw snapshot read by [filter_data] and the snapshot it writes. *)
Record raw_data : Type := {
  raw_train_stations : option (list Element);
  raw_accommodations : option (list Element)
}.

Record filtered_data : Type := {
  train_stations : list Element;
  alpine_huts : list Element;
  other_accommodations : list Element
}.

Definition filter_data (data : raw_data) : result filtered_data :=
  match
    match raw_train_stations data with
    | Some l => filter_missing_elevation l
    | None => Ok []
    end
  with
  | Raise e => Raise e
  | Ok stations =>
      match raw_accommodations data with
      | Some l =>
          match filter_missing_elevation l with
          | Raise e => Raise e
          | Ok missing_ele =>
              let '(huts, others) := prioritize_alpine_huts missing_ele in
              Ok {| train_stations := stations;
                    alpine_huts := huts;
                    other_accommodations := others |}
          end
      | None =>
          Ok {| train_stations := stations;
                alpine_huts := [];
                other_accommodations := [] |}
      end
  end.

(** ** enrich.py *)

Record ElevationEnricher : Type := {
  api_type : string;
  rate_limit : num;
  base_url : string
}.

Definition ElevationEnricher_init (api_type : string) (rate_limit : num)
  : ElevationEnricher :=
  {| api_type := api_type;
     rate_limit := rate_limit;
     base_url :=
       if String.eqb api_type "opentopo"
       then "https://api.opentopodata.org/v1/srtm30m"
       else "https://api.open-elevation.com/api/v1/lookup" |}.

(** One HTTP request of [get_elevation] and the decoded JSON answer. *)
Record request : Type := {
  req_url : string;
  req_lat : num;
  req_lon : num
}.

Record response : Type := {
  status : option string;                       (* "status" *)
  results : option (list (option num))          (* "results", each entry
                                                   with its "elevation" *)
}.

(** The world of the enricher: the backend, which answers a request
    knowing the earlier ones ([None] is a [RequestException]), the
    requests sent so far and the delays slept so far. *)
Record enrich_world : Type := {
  backend : list request -> request -> option response;
  lookups : list request;
  sleeps : list num
}.

Definition http (r : request) : M enrich_world (option response) :=
  fun w => (Ok (backend w (lookups w) r),
            {| backend := backend w;
               lookups := lookups w ++ [r];
               sleeps := sleeps w |}).

Definition sleep (seconds : num) : M enrich_world unit :=
  fun w => (Ok tt,
            {| backend := backend w;
               lookups := lookups w;
               sleeps := sleeps w ++ [seconds] |}).

(** [data["results"][0].get("elevation")] behind the truthiness test of
    [data.get("results")]. *)
Definition first_elevation (results : option (list (option num)))
  : option num :=
  match results with
  | Some (entry :: _) => entry
  | _ => None
  end.

Definition get_elevation (self : ElevationEnricher) (lat lon : num)
  : M enrich_world (option num) :=
  answer <- http {| req_url := base_url self;
                    req_lat := lat; req_lon := lon |} ;;
  match answer with
  | None => ret None
  | Some data =>
      if String.eqb (api_type self) "opentopo" then
        match status data with
        | Some st =>
            if String.eqb st "OK" then ret (first_elevation (results data))
            else ret None
        | None => ret None
        end
      else ret (first_elevation (results data))
  end.

(** The three assignments of [enrich_element] on a successful lookup. *)
Definition set_elevation (element : Element) (elevation : num) : Element :=
  let tags := match e_tags element with
              | Some tags => tags
              | None => ∅
              end in
  {| e_type := e_type element;
     e_id := e_id element;
     e_lat := e_lat element;
     e_lon := e_lon element;
     e_center := e_center element;
     e_tags := Some (<["ele:source" := "SRTM"]>
                       (<["ele" := num_str (num_round1 elevation)]> tags));
     e_elevation_fetched := Some elevation |}.

Definition enrich_element (self : ElevationEnricher) (element : Element)
  : M enrich_world (option Element) :=
  match getitem_type element with
  | Raise e => raise e
  | Ok t =>
      let coords :=
        if String.eqb t "node" then Some (e_lat element, e_lon element)
        else if String.eqb t "way" then
          match e_center element with
          | Some c => Some (c_lat c, c_lon c)
          | None => None
          end
        else None in
      match coords with
      | Some (Some lat, Some lon) =>
          elevation <- get_elevation self lat lon ;;
          let element' := match elevation with
                          | Some v => set_elevation element v
                          | None => element
                          end in
          _ <- sleep (rate_limit self) ;;
          ret (Some element')
      | _ => ret None
      end
  end.

(** [max_count and count >= max_count] *)
Definition limit_reached (max_count : option Z) (count : Z) : bool :=
  match max_count with
  | Some m => negb (m =? 0) && (m <=? count)
  | None => false
  end.

(** The loop of [enrich_elements] with its accumulators. *)
Fixpoint enrich_elements_loop (self : ElevationEnricher)
    (max_count : option Z) (elements enriched : list Element) (count : Z)
  : M enrich_world (list Element) :=
  match elements with
  | [] => ret enriched
  | element :: rest =>
      if limit_reached max_count count then ret enriched
      else
        enriched_element <- enrich_element self element ;;
        match enriched_element with
        | Some e =>
            if dict_truthy e
            then enrich_elements_loop self max_count rest
                   (enriched ++ [e]) (count + 1)
            else enrich_elements_loop self max_count rest enriched count
        | None => enrich_elements_loop self max_count rest enriched count
        end
  end.

Definition enrich_elements (self : ElevationEnricher)
    (elements : list Element) (max_count : option Z)
  : M enrich_world (list Element) :=
  enrich_elements_loop self max_count elements [] 0.

(** The request [get_elevation] sends for a coordinate. *)
Definition request_of (self : ElevationEnricher) (lat lon : num) : request :=
  {| req_url := base_url self; req_lat := lat; req_lon := lon |}.

(** The output of [enrich_element] for an input it does not drop: the
    element as it was (failed lookup) or with the elevation set. *)
Definition enriched_from (element element' : Element) : Prop :=
  element' = element \/ exists v, element' = set_elevation element v.

(** The part of the resolvable elements a run with [max_count] reaches
    when it starts with [count] outputs already produced. *)
Definition reached (max_count : option Z) (count : Z)
    (resolvable : list Element) : list Element :=
  match max_count with
  | Some m =>
      if m =? 0 then resolvable else take (Z.to_nat (m - count)) resolvable
  | None => resolvable
  end.

(** ** validate.py *)

Record ElevationValidator : Type := {
  min_elevation : num;
  max_elevation : num
}.

Definition ElevationValidator_default : ElevationValidator :=
  {| min_elevation := num_of_Z 0; max_elevation := num_of_Z 2600 |}.

(** The dictionary [validate_element] returns. *)
Record validation : Type := {
  valid : bool;
  element_id : option Z;
  element_type : option string;
  elevation : option num;
  errors : list string
}.

Definition validate_element (self : ElevationValidator) (element : Element)
  : validation :=
  match e_elevation_fetched element with
  | None =>
      {| valid := false;
         element_id := e_id element;
         element_type := e_type element;
         elevation := None;
         errors := ["No elevation data"] |}
  | Some elevation =>
      if num_lt elevation (min_elevation self) then
        {| valid := false;
           element_id := e_id element;
           element_type := e_type element;
           elevation := Some elevation;
           errors := ["Elevation " ++ num_str elevation
                      ++ "m below minimum "
                      ++ num_str (min_elevation self) ++ "m"] |}
      else if num_gt elevation (max_elevation self) then
        {| valid := false;
           element_id := e_id element;
           element_type := e_type element;
           elevation := Some elevation;
           errors := ["Elevation " ++ num_str elevation
                      ++ "m above maximum "
                      ++ num_str (max_elevation self) ++ "m"] |}
      else
        {| valid := true;
           element_id := e_id element;
           element_type := e_type element;
           elevation := Some elevation;
           errors := [] |}
  end.

(** [validation["valid"]], the test of the loop of [validate_elements]. *)
Definition is_valid (self : ElevationValidator) (element : Element) : bool :=
  valid (validate_element self element).

(** An entry of the [invalid] list. *)
Record invalid_entry : Type := {
  inv_element : Element;
  inv_validation : validation
}.

Record validate_result : Type := {
  res_valid : list Element;
  res_invalid : list invalid_entry
}.

(** The loop of [validate_elements] with its two accumulators. *)
Fixpoint validate_elements_loop (self : ElevationValidator)
    (elements valid_acc : list Element) (invalid_acc : list invalid_entry)
  : validate_result :=
  match elements with
  | [] => {| res_valid := valid_acc; res_invalid := invalid_acc |}
  | element :: rest =>
      let validation := validate_element self element in
      if valid validation
      then validate_elements_loop self rest (valid_acc ++ [element])
             invalid_acc
      else validate_elements_loop self rest valid_acc
             (invalid_acc ++ [{| inv_element := element;
                                 inv_validation := validation |}])
  end.

Definition validate_elements (self : ElevationValidator)
    (elements : list Element) : validate_result :=
  validate_elements_loop self elements [] [].

(** [validate_all]: a category with an empty list gets no entry. *)
Definition validate_all (self : ElevationValidator)
    (data : gmap string (list Element)) : gmap string validate_result :=
  omap (fun elements =>
          match elements with
          | [] => None
          | _ => Some (validate_elements self elements)
          end) data.

(** The [valid_elements] of the validated snapshot, read back as the
    input of a second run. *)
Definition valid_elements_of (results : gmap string validate_result)
  : gmap string (list Element) :=
  res_valid <$> results.

(** ** upload.py *)

(** What [NodeGet] and [WayGet] return, as far as the code reads it. *)
Record osm_element : Type := {
  osm_id : Z;
  osm_version : Z;
  osm_tag : option (gmap string string)    (* "tag" *)
}.

(** The calls made on [self.api]. *)
Inductive api_call : Type :=
| NodeGet (id : Z)
| WayGet (id : Z)
| ChangesetCreate (tags : gmap string string)
| NodeUpdate (data : osm_element)
| WayUpdate (data : osm_element)
| ChangesetClose.

(** The OSM server answers a call knowing the earlier ones: a fetch gives
    the element or the text of an exception, any other call may raise. *)
Record osm_server : Type := {
  srv_get : list api_call -> api_call -> string + osm_element;
  srv_do : list api_call -> api_call -> option string
}.

Record upload_world : Type := {
  server : osm_server;
  calls : list api_call
}.

(** The handle built by [osmapi.OsmApi(username=..., password=...)]. *)
Record OsmApi : Type := {
  api_username : string;
  api_password : string
}.

Record OSMUploader : Type := {
  dry_run : bool;
  username : option string;
  password : option string;
  api : option OsmApi
}.

Definition OSMUploader_init (username password : option string)
    (dry_run : bool) : result OSMUploader :=
  if negb dry_run then
    match username, password with
    | Some u, Some p =>
        if negb (truthy_str username) || negb (truthy_str password)
        then Raise (ValueError
                      "Username and password required for actual upload")
        else Ok {| dry_run := dry_run;
                   username := username;
                   password := password;
                   api := Some {| api_username := u; api_password := p |} |}
    | _, _ =>
        Raise (ValueError "Username and password required for actual upload")
    end
  else Ok {| dry_run := dry_run;
             username := username;
             password := password;
             api := None |}.

(** The body of the [try] block: [inl] carries [str(e)] of the exception
    that left it. *)
Definition T (A : Type) : Type := upload_world -> (string + A) * upload_world.

Definition tbind {A B} (c : T A) (k : A -> T B) : T B :=
  fun w => match c w with
           | (inr a, w') => k a w'
           | (inl err, w') => (inl err, w')
           end.

Definition api_get (c : api_call) : T osm_element :=
  fun w => (srv_get (server w) (calls w) c,
            {| server := server w; calls := calls w ++ [c] |}).

Definition api_do (c : api_call) : T unit :=
  fun w => (match srv_do (server w) (calls w) c with
            | Some err => inl err
            | None => inr tt
            end,
            {| server := server w; calls := calls w ++ [c] |}).

(** [osm_element["tag"]["ele"] = ...; osm_element["tag"]["ele:source"] = ...] *)
Definition update_tags (osm : osm_element) (ele_value : string)
  : osm_element :=
  let tag := match osm_tag osm with
             | Some tag => tag
             | None => ∅
             end in
  {| osm_id := osm_id osm;
     osm_version := osm_version osm;
     osm_tag := Some (<["ele:source" := "SRTM"]>
                        (<["ele" := ele_value]> tag)) |}.

(** The statements of the [try] block once [element_type] is known to be
    "node" ([is_node]) or "way". *)
Definition upload_live (is_node : bool) (element_id : Z)
    (ele_value changeset_comment : string) : T (bool * string) :=
  tbind (api_get (if is_node then NodeGet element_id else WayGet element_id))
    (fun osm =>
       let osm' := update_tags osm ele_value in
       tbind (api_do (ChangesetCreate
                        (<["created_by" := "elevate-romania script"]>
                           {["comment" := changeset_comment]})))
         (fun _ =>
            tbind (api_do (if is_node then NodeUpdate osm' else WayUpdate osm'))
              (fun _ =>
                 tbind (api_do ChangesetClose)
                   (fun _ w => (inr (true, "Upload successful"), w))))).

(** [str(e)] of the [AttributeError] raised by [self.api.NodeGet] when
    [self.api] is [None]. *)
Definition no_api_message (is_node : bool) : string :=
  if is_node
  then "'NoneType' object has no attribute 'NodeGet'"
  else "'NoneType' object has no attribute 'WayGet'".

(** [element.get("tags", {})] *)
Definition tags_of (element : Element) : gmap string string :=
  match e_tags element with
  | Some tags => tags
  | None => ∅
  end.

Definition upload_element (self : OSMUploader) (element : Element)
    (changeset_comment : string)
  : upload_world -> (bool * string) * upload_world :=
  fun w =>
    let element_type := e_type element in
    let element_id := e_id element in
    let tags := tags_of element in
    if negb (truthy_int element_id) || negb (truthy_str element_type)
    then ((false, "Missing element ID or type"), w)
    else if negb (dict_has "ele" tags) || negb (dict_has "ele:source" tags)
    then ((false, "Missing elevation data in tags"), w)
    else
      match element_id, element_type, tags !! "ele" with
      | Some id, Some ty, Some ele_value =>
          if dry_run self then ((true, "Dry-run successful"), w)
          else if String.eqb ty "node" || String.eqb ty "way" then
            let is_node := String.eqb ty "node" in
            match api self with
            | Some _ =>
                match upload_live is_node id ele_value changeset_comment w with
                | (inr r, w') => (r, w')
                | (inl err, w') => ((false, "Error uploading: " ++ err), w')
                end
            | None =>
                ((false, "Error uploading: " ++ no_api_message is_node), w)
            end
          else ((false, "Unsupported element type: " ++ ty), w)
      | _, _, _ =>
          (* not reached: the two tests above have passed *)
          ((false, "Missing element ID or type"), w)
      end.

(** An entry of [stats["errors"]]. *)
Record upload_error : Type := {
  err_element_id : option Z;
  err_error : string
}.

Record upload_stats : Type := {
  total : Z;
  successful : Z;
  failed : Z;
  upload_errors : list upload_error
}.

(** The loop of [upload_elements], [stats] being the dictionary updated
    in place. *)
Fixpoint upload_elements_loop (self : OSMUploader)
    (elements : list Element) (stats : upload_stats)
  : upload_world -> upload_stats * upload_world :=
  fun w =>
    match elements with
    | [] => (stats, w)
    | element :: rest =>
        let '((success, message), w') :=
          upload_element self element "Add elevation data" w in
        let stats' :=
          if success then
            {| total := total stats;
               successful := successful stats + 1;
               failed := failed stats;
               upload_errors := upload_errors stats |}
          else
            {| total := total stats;
               successful := successful stats;
               failed := failed stats + 1;
               upload_errors :=
                 upload_errors stats
                 ++ [{| err_element_id := e_id element;
                        err_error := message |}] |} in
        upload_elements_loop self rest stats' w'
    end.

Definition upload_elements (self : OSMUploader) (elements : list Element)
  : upload_world -> upload_stats * upload_world :=
  upload_elements_loop self elements
    {| total := Z.of_nat (length elements);
       successful := 0;
       failed := 0;
       upload_errors := [] |}.

(** [upload_all] over the categories in the order of the snapshot. *)
Fixpoint upload_all (self : OSMUploader)
    (data : list (string * list Element))
  : upload_world -> list (string * upload_stats) * upload_world :=
  fun w =>
    match data with
    | [] => ([], w)
    | (category, []) :: rest => upload_all self rest w
    | (category, elements) :: rest =>
        let '(stats, w') := upload_elements self elements w in
        let '(all_stats, w'') := upload_all self rest w' in
        ((category, stats) :: all_stats, w'')
    end.

(** The results of [upload_element] on the elements in turn: what the
    loop of [upload_elements] sees, one pair per element. *)
Fixpoint upload_trace (self : OSMUploader) (elements : list Element)
  : upload_world -> list (Element * (bool * string)) * upload_world :=
  fun w =>
    match elements with
    | [] => ([], w)
    | element :: rest =>
        let '(r, w') := upload_element self element "Add elevation data" w in
        let '(rs, w'') := upload_trace self rest w' in
        ((element, r) :: rs, w'')
    end.

(** Whether a pair of the trace is a success, and the entry of
    [stats["errors"]] a failed pair gives. *)
Definition succeeded (r : Element * (bool * string)) : bool := fst (snd r).

Definition error_entry (r : Element * (bool * string)) : upload_error :=
  {| err_element_id := e_id (fst r); err_error := snd (snd r) |}.

End Pipeline.

(** ** main.py: the upload branch *)

(** The parsed command line. *)
Record Args : Type := {
  arg_extract : bool;
  arg_filter : bool;
  arg_enrich : bool;
  arg_validate : bool;
  arg_export_csv : bool;
  arg_upload : bool;
  arg_all : bool;
  arg_dry_run : bool;
  arg_limit : option Z;
  arg_username : option string;
  arg_password : option string
}.

(** What [main] does about the upload stage. *)
Inductive upload_action : Type :=
| NotRequested
| ConfigurationError      (* prints the error and returns *)
| RunUpload (dry_run : bool) (username password : option string).

Definition main_upload (args : Args) : upload_action :=
  if arg_all args || arg_upload args then
    let dry_run := if arg_dry_run args then arg_dry_run args else true in
    if negb dry_run && negb (truthy_str (arg_username args))
    then ConfigurationError
    else RunUpload dry_run (arg_username args) (arg_password args)
  else NotRequested.

(** The uploader [run_upload] constructs for that action. *)
Definition main_uploader (args : Args) : option (result OSMUploader) :=
  match main_upload args with
  | RunUpload dry_run username password =>
      Some (OSMUploader_init username password dry_run)
  | _ => None
  end.

(** * The rest of the pipeline *)

Section PipelineMore.
Context {PN : PyNumber}.

(** ** enrich.py: the request an element gives rise to *)

(** The request [enrich_element] sends for an element, when its
    coordinate resolves. *)
Definition request_for (self : ElevationEnricher) (element : Element)
  : option request :=
  match get_coordinates element with
  | Ok (Some lat, Some lon) => Some (request_of self lat lon)
  | _ => None
  end.

(** ** upload.py: what [upload_element] requires and sends *)

(** The four tests [upload_element] makes before it does anything. *)
Definition uploadable (element : Element) : bool :=
  truthy_int (e_id element) && truthy_str (e_type element)
  && dict_has "ele" (tags_of element)
  && dict_has "ele:source" (tags_of element).

(** The message of a dry run: that of the first test that fails. *)
Definition dry_run_message (element : Element) : string :=
  if negb (truthy_int (e_id element)) || negb (truthy_str (e_type element))
  then "Missing element ID or type"
  else if negb (dict_has "ele" (tags_of element))
          || negb (dict_has "ele:source" (tags_of element))
       then "Missing elevation data in tags"
       else "Dry-run successful".

(** The dictionary passed to [ChangesetCreate]. *)
Definition changeset_tags (changeset_comment : string) : gmap string string :=
  <["created_by" := "elevate-romania script"]>
    {["comment" := changeset_comment]}.

(** The fetch and the update [upload_element] issues for a node or a way. *)
Definition get_call (ty : string) (id : Z) : api_call :=
  if String.eqb ty "node" then NodeGet id else WayGet id.

Definition update_call (ty : string) (osm : osm_element) : api_call :=
  if String.eqb ty "node" then NodeUpdate osm else WayUpdate osm.

(** The world after some more calls. *)
Definition after_calls (w : upload_world) (new : list api_call)
  : upload_world :=
  {| server := server w; calls := calls w ++ new |}.

(** ** csv_export.py *)

(** A value of a CSV row: a string, an integer or a number. *)
Inductive cell : Type :=
| CellStr (s : string)
| CellInt (n : Z)
| CellNum (x : num).

(** [d.get(key, "")] for a number and for an integer. *)
Definition cell_of_num (x : option num) : cell :=
  match x with
  | Some v => CellNum v
  | None => CellStr ""
  end.

Definition cell_of_int (x : option Z) : cell :=
  match x with
  | Some n => CellInt n
  | None => CellStr ""
  end.

(** The rendering of a cell inside an f-string. *)
Definition cell_str (c : cell) : string :=
  match c with
  | CellStr s => s
  | CellInt n => pretty n
  | CellNum x => num_str x
  end.

(** [tags.get(key, "")] *)
Definition tag_or_empty (tags : gmap string string) (key : string) : string :=
  match tags !! key with
  | Some v => v
  | None => ""
  end.

(** The dictionary [get_element_info] returns. *)
Record element_info : Type := {
  info_type : string;
  info_id : cell;
  info_name : string;
  info_lat : cell;
  info_lon : cell;
  info_elevation : string;
  info_elevation_source : string;
  info_tourism : string;
  info_railway : string;
  info_osm_link : string
}.

Definition get_element_info (element : Element) : element_info :=
  let element_type := match e_type element with
                      | Some t => t
                      | None => ""
                      end in
  let element_id := cell_of_int (e_id element) in
  let coords :=
    if String.eqb element_type "node"
    then (cell_of_num (e_lat element), cell_of_num (e_lon element))
    else if String.eqb element_type "way" then
      match e_center element with
      | Some c => (cell_of_num (c_lat c), cell_of_num (c_lon c))
      | None => (CellStr "", CellStr "")
      end
    else (CellStr "", CellStr "") in
  let tags := tags_of element in
  {| info_type := element_type;
     info_id := element_id;
     info_name := match tags !! "name" with
                  | Some name => name
                  | None => tag_or_empty tags "ref"
                  end;
     info_lat := fst coords;
     info_lon := snd coords;
     info_elevation := tag_or_empty tags "ele";
     info_elevation_source := tag_or_empty tags "ele:source";
     info_tourism := tag_or_empty tags "tourism";
     info_railway := tag_or_empty tags "railway";
     info_osm_link := "https://www.openstreetmap.org/" ++ element_type
                      ++ "/" ++ cell_str element_id |}.

(** An entry of the validated snapshot. *)
Record validated_entry : Type := {
  valid_count : Z;
  invalid_count : Z;
  valid_elements : list Element
}.

(** The value of a category in the data given to [export_to_csv]: a list
    of elements, a dictionary whose "valid_elements" is such a list, or
    anything else. *)
Inductive category_value : Type :=
| CatElements (elements : list Element)
| CatValidated (entry : validated_entry)
| CatOther.

(** The list [export_to_csv] iterates for a category, if there is one. *)
Definition category_elements (value : category_value)
  : option (list Element) :=
  match value with
  | CatElements elements => Some elements
  | CatValidated entry => Some (valid_elements entry)
  | CatOther => None
  end.

(** A row: the info of an element with its "category". *)
Record csv_row : Type := {
  row_category : string;
  row_info : element_info
}.

(** The inner loop of [export_to_csv]. *)
Fixpoint export_elements_loop (category : string) (elements : list Element)
    (rows : list csv_row) : list csv_row :=
  match elements with
  | [] => rows
  | element :: rest =>
      export_elements_loop category rest
        (rows ++ [{| row_category := category;
                     row_info := get_element_info element |}])
  end.

(** The outer loop of [export_to_csv]. *)
Fixpoint export_rows_loop (data : list (string * category_value))
    (rows : list csv_row) : list csv_row :=
  match data with
  | [] => rows
  | (category, value) :: rest =>
      match category_elements value with
      | Some elements =>
          export_rows_loop rest (export_elements_loop category elements rows)
      | None => export_rows_loop rest rows
      end
  end.

(** [export_to_csv] over the CSV files by name; the header line and the
    quoting of the writer are not part of the model: a file is the
    sequence of its rows. *)
Definition export_to_csv (data : list (string * category_value))
    (output_file : string) (csv : gmap string (list csv_row))
  : Z * gmap string (list csv_row) :=
  let rows := export_rows_loop data [] in
  match rows with
  | [] => (0, csv)
  | _ => (Z.of_nat (length rows), <[output_file := rows]> csv)
  end.

(** The rows a category contributes. *)
Definition category_rows (kv : string * category_value) : list csv_row :=
  match category_elements (snd kv) with
  | Some elements =>
      List.map (fun e => {| row_category := fst kv;
                            row_info := get_element_info e |}) elements
  | None => []
  end.

(** ** extract.py *)

(** The two Overpass queries, whose text is a constant of the source. *)
Inductive overpass_query : Type :=
| TrainStationsQuery
| AccommodationsQuery.

Record OverpassExtractor : Type := {
  overpass_url : string
}.

Definition OverpassExtractor_default : OverpassExtractor :=
  {| overpass_url := "https://overpass-api.de/api/interpreter" |}.

(** The decoded answer of Overpass, as far as the code reads it. *)
Record overpass_answer : Type := {
  ans_elements : option (list Element)     (* "elements" *)
}.

(** The world of the extractor: the Overpass server, which answers a
    query knowing the earlier ones ([None] is a [RequestException]), the
    queries posted so far and the pauses slept so far, in seconds. *)
Record extract_world : Type := {
  overpass : list (string * overpass_query) -> string -> overpass_query
             -> option overpass_answer;
  posts : list (string * overpass_query);
  pauses : list Z
}.

Definition _query_overpass (self : OverpassExtractor) (query : overpass_query)
  : extract_world -> option overpass_answer * extract_world :=
  fun w => (overpass w (posts w) (overpass_url self) query,
            {| overpass := overpass w;
               posts := posts w ++ [(overpass_url self, query)];
               pauses := pauses w |}).

(** [result["elements"]] behind the test [result and "elements" in result] *)
Definition elements_or_empty (result : option overpass_answer)
  : list Element :=
  match result with
  | Some answer =>
      match ans_elements answer with
      | Some elements => elements
      | None => []
      end
  | None => []
  end.

Definition get_train_stations (self : OverpassExtractor)
  : extract_world -> list Element * extract_world :=
  fun w =>
    let '(result, w') := _query_overpass self TrainStationsQuery w in
    (elements_or_empty result, w').

Definition get_accommodations (self : OverpassExtractor)
  : extract_world -> list Element * extract_world :=
  fun w =>
    let '(result, w') := _query_overpass self AccommodationsQuery w in
    (elements_or_empty result, w').

Definition pause (seconds : Z) : extract_world -> unit * extract_world :=
  fun w => (tt, {| overpass := overpass w;
                   posts := posts w;
                   pauses := pauses w ++ [seconds] |}).

Definition get_all_data (self : OverpassExtractor)
  : extract_world -> raw_data * extract_world :=
  fun w =>
    let '(stations, w1) := get_train_stations self w in
    let '(_, w2) := pause 2 w1 in
    let '(accommodations, w3) := get_accommodations self w2 in
    ({| raw_train_stations := Some stations;
        raw_accommodations := Some accommodations |}, w3).

(** ** main.py: the stages and their snapshots *)

(** The snapshot files, each holding what its stage writes ([None]: the
    file does not exist), and the CSV files by name.  Writing a snapshot
    and reading it back gives the same data. *)
Record files : Type := {
  osm_data_raw : option raw_data;
  osm_data_filtered : option filtered_data;
  osm_data_enriched : option (list (string * list Element));
  osm_data_validated : option (list (string * validated_entry));
  csv_files : gmap string (list csv_row)
}.

(** Everything a run of [main] can touch. *)
Record world : Type := {
  fs : files;
  overpass_world : extract_world;
  elevation_world : enrich_world;
  osm_world : upload_world
}.

(** Writing one snapshot leaves the other files as they are. *)
Definition write_raw (f : files) (data : raw_data) : files :=
  {| osm_data_raw := Some data;
     osm_data_filtered := osm_data_filtered f;
     osm_data_enriched := osm_data_enriched f;
     osm_data_validated := osm_data_validated f;
     csv_files := csv_files f |}.

Definition write_filtered (f : files) (data : filtered_data) : files :=
  {| osm_data_raw := osm_data_raw f;
     osm_data_filtered := Some data;
     osm_data_enriched := osm_data_enriched f;
     osm_data_validated := osm_data_validated f;
     csv_files := csv_files f |}.

Definition write_enriched (f : files) (data : list (string * list Element))
  : files :=
  {| osm_data_raw := osm_data_raw f;
     osm_data_filtered := osm_data_filtered f;
     osm_data_enriched := Some data;
     osm_data_validated := osm_data_validated f;
     csv_files := csv_files f |}.

Definition write_validated (f : files)
    (data : list (string * validated_entry)) : files :=
  {| osm_data_raw := osm_data_raw f;
     osm_data_filtered := osm_data_filtered f;
     osm_data_enriched := osm_data_enriched f;
     osm_data_validated := Some data;
     csv_files := csv_files f |}.

Definition write_csv (f : files) (csv : gmap string (list csv_row)) : files :=
  {| osm_data_raw := osm_data_raw f;
     osm_data_filtered := osm_data_filtered f;
     osm_data_enriched := osm_data_enriched f;
     osm_data_validated := osm_data_validated f;
     csv_files := csv |}.

(** The world with one of its parts replaced. *)
Definition with_files (w : world) (f : files) : world :=
  {| fs := f;
     overpass_world := overpass_world w;
     elevation_world := elevation_world w;
     osm_world := osm_world w |}.

Definition with_overpass (w : world) (x : extract_world) : world :=
  {| fs := fs w;
     overpass_world := x;
     elevation_world := elevation_world w;
     osm_world := osm_world w |}.

Definition with_elevation (w : world) (x : enrich_world) : world :=
  {| fs := fs w;
     overpass_world := overpass_world w;
     elevation_world := x;
     osm_world := osm_world w |}.

Definition with_osm (w : world) (x : upload_world) : world :=
  {| fs := fs w;
     overpass_world := overpass_world w;
     elevation_world := elevation_world w;
     osm_world := x |}.

Definition get_files : M world files := fun w => (Ok (fs w), w).

Definition put_files (f : files) : M world unit :=
  fun w => (Ok tt, with_files w f).

Definition lift_result {A} (r : result A) : M world A := fun w => (r, w).

Definition lift_extract {A} (c : extract_world -> A * extract_world)
  : M world A :=
  fun w => let '(a, x) := c (overpass_world w) in (Ok a, with_overpass w x).

Definition lift_enrich {A} (c : M enrich_world A) : M world A :=
  fun w => let '(r, x) := c (elevation_world w) in (r, with_elevation w x).

Definition lift_upload {A} (c : upload_world -> A * upload_world)
  : M world A :=
  fun w => let '(a, x) := c (osm_world w) in (Ok a, with_osm w x).

Definition run_extract : M world raw_data :=
  data <- lift_extract (get_all_data OverpassExtractor_default) ;;
  f <- get_files ;;
  _ <- put_files (write_raw f data) ;;
  ret data.

Definition run_filter : M world (option filtered_data) :=
  f <- get_files ;;
  match osm_data_raw f with
  | None => ret None
  | Some data =>
      filtered <- lift_result (filter_data data) ;;
      _ <- put_files (write_filtered f filtered) ;;
      ret (Some filtered)
  end.

(** What a category adds to the dictionary a stage builds: nothing when
    its list in the input is empty. *)
Definition category_item {A} (name : string) (elements : list Element)
    (value : A) : list (string * A) :=
  match elements with
  | [] => []
  | _ => [(name, value)]
  end.

(** One of the three blocks of [run_enrich]:
    [if data.get(name): enriched_data[name] = enrich_elements(...)]. *)
Definition enrich_category (enricher : ElevationEnricher)
    (max_items : option Z) (name : string) (elements : list Element)
    (enriched_data : list (string * list Element))
  : M world (list (string * list Element)) :=
  match elements with
  | [] => ret enriched_data
  | _ =>
      out <- lift_enrich (enrich_elements enricher elements max_items) ;;
      ret (enriched_data ++ [(name, out)])%list
  end.

Definition run_enrich (max_items : option Z)
  : M world (option (list (string * list Element))) :=
  f <- get_files ;;
  match osm_data_filtered f with
  | None => ret None
  | Some data =>
      let enricher := ElevationEnricher_init "opentopo" (num_of_Z 1) in
      d1 <- enrich_category enricher max_items "alpine_huts"
              (alpine_huts data) [] ;;
      d2 <- enrich_category enricher max_items "train_stations"
              (train_stations data) d1 ;;
      d3 <- enrich_category enricher max_items "other_accommodations"
              (other_accommodations data) d2 ;;
      f' <- get_files ;;
      _ <- put_files (write_enriched f' d3) ;;
      ret (Some d3)
  end.

(** The loop of [validate_all] over the items of the snapshot, in their
    order. *)
Fixpoint validate_all_loop (self : ElevationValidator)
    (data : list (string * list Element))
    (results : list (string * validate_result))
  : list (string * validate_result) :=
  match data with
  | [] => results
  | (category, []) :: rest => validate_all_loop self rest results
  | (category, elements) :: rest =>
      validate_all_loop self rest
        (results ++ [(category, validate_elements self elements)])
  end.

(** The entry [run_validate] writes for a category. *)
Definition entry_of (validation : validate_result) : validated_entry :=
  {| valid_count := Z.of_nat (length (res_valid validation));
     invalid_count := Z.of_nat (length (res_invalid validation));
     valid_elements := res_valid validation |}.

Definition run_validate : M world (option (list (string * validate_result))) :=
  f <- get_files ;;
  match osm_data_enriched f with
  | None => ret None
  | Some data =>
      let results := validate_all_loop ElevationValidator_default data [] in
      let output := List.map (fun kv => (fst kv, entry_of (snd kv))) results in
      _ <- put_files (write_validated f output) ;;
      ret (Some results)
  end.

Definition run_export_csv : M world (option Z) :=
  f <- get_files ;;
  match osm_data_validated f with
  | None => ret None
  | Some data =>
      let '(count, csv) :=
        export_to_csv
          (List.map (fun kv => (fst kv, CatValidated (snd kv))) data)
          "elevation_data.csv" (csv_files f) in
      _ <- put_files (write_csv f csv) ;;
      ret (Some count)
  end.

Definition run_upload (dry_run : bool) (username password : option string)
  : M world (option (list (string * upload_stats))) :=
  f <- get_files ;;
  match osm_data_validated f with
  | None => ret None
  | Some data =>
      let valid_data :=
        List.map (fun kv => (fst kv, valid_elements (snd kv))) data in
      uploader <- lift_result (OSMUploader_init username password dry_run) ;;
      stats <- lift_upload (upload_all uploader valid_data) ;;
      ret (Some stats)
  end.

(** A category of a snapshot whose list is not empty. *)
Definition has_elements {A} (kv : string * list A) : bool :=
  match snd kv with
  | [] => false
  | _ => true
  end.

(** A computation that leaves the OSM store and its call log alone. *)
Definition osm_kept {A} (c : M world A) : Prop :=
  forall w, osm_world (snd (c w)) = osm_world w.

(** How [main] ends: the help text, the closing banner, the message of
    the upload branch, or [sys.exit(1)] after an exception. *)
Inductive outcome : Type :=
| HelpPrinted
| Completed
| ConfigurationErrorReported
| Failed (e : exn).

(** [if args.all or args.<stage>: run_<stage>()] *)
Definition when {A} (requested : bool) (stage : M world A) : M world unit :=
  if requested then _ <- stage ;; ret tt else ret tt.

(** The body of the [try] of [main]. *)
Definition main_stages (args : Args) : M world outcome :=
  _ <- when (arg_all args || arg_extract args) run_extract ;;
  _ <- when (arg_all args || arg_filter args) run_filter ;;
  _ <- when (arg_all args || arg_enrich args) (run_enrich (arg_limit args)) ;;
  _ <- when (arg_all args || arg_validate args) run_validate ;;
  _ <- when (arg_all args || arg_export_csv args) run_export_csv ;;
  match main_upload args with
  | NotRequested => ret Completed
  | ConfigurationError => ret ConfigurationErrorReported
  | RunUpload dry_run username password =>
      _ <- run_upload dry_run username password ;;
      ret Completed
  end.

Definition main (args : Args) : world -> outcome * world :=
  fun w =>
    if negb (arg_extract args || arg_filter args || arg_enrich args
             || arg_validate args || arg_export_csv args
             || arg_upload args || arg_all args)
    then (HelpPrinted, w)
    else
      match main_stages args w with
      | (Ok o, w') => (o, w')
      | (Raise e, w') => (Failed e, w')
      end.

End PipelineMore.

(** ** Sample data, over Python integers *)

Module Samples.
#[local] Existing Instance PyInt.

Definition node_sample : Element :=
  {| e_type := Some "node"; e_id := Some 1;
     e_lat := Some 45; e_lon := Some 25;
     e_center := None;
     e_tags := Some {["railway" := "station"]};
     e_elevation_fetched := None |}.

Definition way_hut_sample : Element :=
  {| e_type := Some "way"; e_id := Some 2;
     e_lat := None; e_lon := None;
     e_center := Some {| c_lat := Some 46; c_lon := Some 24 |};
     e_tags := Some {["tourism" := "alpine_hut"]};
     e_elevation_fetched := None |}.

Definition tagged_sample : Element :=
  {| e_type := Some "node"; e_id := Some 3;
     e_lat := Some 45; e_lon := Some 25;
     e_center := None;
     e_tags := Some (<["ele:source" := "SRTM"]> {["ele" := "850"]});
     e_elevation_fetched := Some 850 |}.

Definition high_sample : Element :=
  {| e_type := Some "node"; e_id := Some 5;
     e_lat := Some 45; e_lon := Some 25;
     e_center := None;
     e_tags := Some (<["ele:source" := "SRTM"]> {["ele" := "3000"]});
     e_elevation_fetched := Some 3000 |}.

Definition enricher : ElevationEnricher := ElevationEnricher_init "opentopo" 1.

(** A backend that is unreachable and one that always answers 850. *)
Definition offline_world : enrich_world :=
  {| backend := fun _ _ => None; lookups := []; sleeps := [] |}.

Definition flat_world : enrich_world :=
  {| backend := fun _ _ => Some {| status := Some "OK";
                                   results := Some [Some 850] |};
     lookups := []; sleeps := [] |}.

Definition no_location_sample : Element :=
  {| e_type := Some "way"; e_id := Some 4;
     e_lat := None; e_lon := None;
     e_center := None;
     e_tags := Some {["tourism" := "hotel"]};
     e_elevation_fetched := None |}.

Definition zero_id_sample : Element :=
  {| e_type := Some "node"; e_id := Some 0;
     e_lat := Some 45; e_lon := Some 25;
     e_center := None;
     e_tags := Some (<["ele:source" := "SRTM"]> {["ele" := "850"]});
     e_elevation_fetched := Some 850 |}.

Definition untagged_source_sample : Element :=
  {| e_type := Some "node"; e_id := Some 6;
     e_lat := Some 45; e_lon := Some 25;
     e_center := None;
     e_tags := Some {["ele" := "850"]};
     e_elevation_fetched := Some 850 |}.

Definition dry_uploader : OSMUploader :=
  {| dry_run := true; username := None; password := None; api := None |}.

Definition live_uploader : OSMUploader :=
  {| dry_run := false; username := Some "mapper"; password := Some "secret";
     api := Some {| api_username := "mapper"; api_password := "secret" |} |}.

(** A server that holds every element untagged and accepts every call. *)
Definition accepting_world : upload_world :=
  {| server :=
       {| srv_get := fun _ c =>
                       match c with
                       | NodeGet id | WayGet id =>
                           inr {| osm_id := id; osm_version := 1;
                                  osm_tag := None |}
                       | _ => inl "not a fetch"
                       end;
          srv_do := fun _ _ => None |};
     calls := [] |}.

(** [main.py --upload], with no other option. *)
Definition upload_only : Args :=
  {| arg_extract := false; arg_filter := false; arg_enrich := false;
     arg_validate := false; arg_export_csv := false;
     arg_upload := true; arg_all := false;
     arg_dry_run := false; arg_limit := None;
     arg_username := None; arg_password := None |}.

(** [main.py --upload --username mapper --password secret] *)
Definition upload_with_credentials : Args :=
  {| arg_extract := false; arg_filter := false; arg_enrich := false;
     arg_validate := false; arg_export_csv := false;
     arg_upload := true; arg_all := false;
     arg_dry_run := false; arg_limit := None;
     arg_username := Some "mapper"; arg_password := Some "secret" |}.

End Samples.

Module MoreSamples.
#[local] Existing Instance PyInt.

(** A relation that carries both tags. *)
Definition relation_sample : Element :=
  {| e_type := Some "relation"; e_id := Some 8;
     e_lat := None; e_lon := None;
     e_center := None;
     e_tags := Some (<["ele:source" := "SRTM"]> {["ele" := "850"]});
     e_elevation_fetched := Some 850 |}.

(** The element the accepting server holds under id 3. *)
Definition upstream_sample : osm_element :=
  {| osm_id := 3; osm_version := 1; osm_tag := None |}.

(** A server that accepts everything but the update. *)
Definition update_refusing_world : upload_world :=
  {| server :=
       {| srv_get := srv_get (server Samples.accepting_world);
          srv_do := fun _ c =>
                      match c with
                      | NodeUpdate _ | WayUpdate _ => Some "409 Conflict"
                      | _ => None
                      end |};
     calls := [] |}.

(** Two elements without a "type" key, the second with an "ele" tag. *)
Definition untyped_sample : Element :=
  {| e_type := None; e_id := Some 7;
     e_lat := Some 45; e_lon := Some 25;
     e_center := None;
     e_tags := Some {["tourism" := "hotel"]};
     e_elevation_fetched := None |}.

Definition untyped_tagged_sample : Element :=
  {| e_type := None; e_id := Some 9;
     e_lat := Some 45; e_lon := Some 25;
     e_center := None;
     e_tags := Some {["ele" := "900"]};
     e_elevation_fetched := None |}.

(** No snapshot yet, and the snapshots of a run after each stage. *)
Definition empty_files : files :=
  {| osm_data_raw := None; osm_data_filtered := None;
     osm_data_enriched := None; osm_data_validated := None;
     csv_files := ∅ |}.

Definition filtered_files : files :=
  write_filtered empty_files
    {| train_stations := [Samples.node_sample; Samples.node_sample];
       alpine_huts := [Samples.way_hut_sample; Samples.way_hut_sample];
       other_accommodations := [] |}.

Definition enriched_files : files :=
  write_enriched empty_files
    [("alpine_huts", [Samples.tagged_sample; Samples.high_sample]);
     ("train_stations", [])].

(** An Overpass server that answers both queries. *)
Definition answering_overpass : extract_world :=
  {| overpass := fun _ _ q =>
                   Some {| ans_elements :=
                             Some match q with
                                  | TrainStationsQuery =>
                                      [Samples.node_sample;
                                       Samples.tagged_sample]
                                  | AccommodationsQuery =>
                                      [Samples.way_hut_sample;
                                       Samples.no_location_sample]
                                  end |};
     posts := []; pauses := [] |}.

Definition world_with (f : files) : world :=
  {| fs := f;
     overpass_world := answering_overpass;
     elevation_world := Samples.flat_world;
     osm_world := Samples.accepting_world |}.

(** [main.py --filter] and [main.py --all --limit 1]. *)
Definition filter_only : Args :=
  {| arg_extract := false; arg_filter := true; arg_enrich := false;
     arg_validate := false; arg_export_csv := false;
     arg_upload := false; arg_all := false;
     arg_dry_run := false; arg_limit := None;
     arg_username := None; arg_password := None |}.

Definition all_limit_one : Args :=
  {| arg_extract := false; arg_filter := false; arg_enrich := false;
     arg_validate := false; arg_export_csv := false;
     arg_upload := false; arg_all := true;
     arg_dry_run := false; arg_limit := Some 1;
     arg_username := None; arg_password := None |}.

End MoreSamples.

(** Closes [Forall (fun e => e_type e <> None)] on a list of samples. *)
Ltac all_typed := repeat constructor; discriminate.

(** * Properties *)

Local Open Scope list_scope.

(** ** The scenarios of the pipeline, run on the samples *)

Module Scenarios.
Import Samples.
#[local] Existing Instance PyInt.

Example filter_keeps_untagged_located :
  filter_missing_elevation
    [node_sample; tagged_sample; way_hut_sample; no_location_sample]
  = Ok [node_sample; way_hut_sample].
Proof. reflexivity. Qed.

Example filter_raises_without_type :
  filter_missing_elevation
    [{| e_type := None; e_id := Some 7; e_lat := Some 45; e_lon := Some 25;
        e_center := None; e_tags := None; e_elevation_fetched := None |}]
  = Raise (KeyError "type").
Proof. reflexivity. Qed.

Example prioritize_huts_first :
  prioritize_alpine_huts [node_sample; way_hut_sample; no_location_sample]
  = ([way_hut_sample], [node_sample; no_location_sample]).
Proof. reflexivity. Qed.

Example enrich_station :
  enrich_element enricher node_sample flat_world
  = (Ok (Some {| e_type := Some "node"; e_id := Some 1;
                 e_lat := Some 45; e_lon := Some 25;
                 e_center := None;
                 e_tags := Some (<["ele:source" := "SRTM"]>
                                   (<["ele" := "850"]>
                                      {["railway" := "station"]}));
                 e_elevation_fetched := Some 850 |}),
     {| backend := backend flat_world;
        lookups := [{| req_url := "https://api.opentopodata.org/v1/srtm30m";
                       req_lat := 45; req_lon := 25 |}];
        sleeps := [1] |}).
Proof. reflexivity. Qed.

Example enrich_offline_passes_through :
  fst (enrich_element enricher node_sample offline_world)
  = Ok (Some node_sample).
Proof. reflexivity. Qed.

Example enrich_without_location :
  enrich_element enricher no_location_sample flat_world
  = (Ok None, flat_world).
Proof. reflexivity. Qed.

Example validate_in_range :
  validate_element ElevationValidator_default tagged_sample
  = {| valid := true; element_id := Some 3; element_type := Some "node";
       elevation := Some 850; errors := [] |}.
Proof. reflexivity. Qed.

Example validate_too_high :
  validate_element ElevationValidator_default high_sample
  = {| valid := false; element_id := Some 5; element_type := Some "node";
       elevation := Some 3000;
       errors := ["Elevation 3000m above maximum 2600m"] |}.
Proof. reflexivity. Qed.

Example upload_dry_run :
  upload_element dry_uploader tagged_sample "Add elevation data"
    accepting_world
  = ((true, "Dry-run successful"), accepting_world).
Proof. reflexivity. Qed.

Example upload_live_calls :
  let '(r, w) := upload_element live_uploader tagged_sample
                   "Add elevation data" accepting_world in
  r = (true, "Upload successful")
  /\ calls w
     = [NodeGet 3;
        ChangesetCreate (<["created_by" := "elevate-romania script"]>
                           {["comment" := "Add elevation data"]});
        NodeUpdate {| osm_id := 3; osm_version := 1;
                      osm_tag := Some (<["ele:source" := "SRTM"]>
                                         {["ele" := "850"]}) |};
        ChangesetClose].
Proof. split; reflexivity. Qed.

Example upload_stats_sample :
  fst (upload_elements dry_uploader
         [tagged_sample; node_sample; zero_id_sample] accepting_world)
  = {| total := 3; successful := 1; failed := 2;
       upload_errors :=
         [{| err_element_id := Some 1;
             err_error := "Missing elevation data in tags" |};
          {| err_element_id := Some 0;
             err_error := "Missing element ID or type" |}] |}.
Proof. reflexivity. Qed.

End Scenarios.

(** ** filter.py *)

Section FilterSpec.
Context {PN : PyNumber}.

Lemma filter_nil_acc (elements acc : list Element) :
  Forall (fun e => e_type e <> None) elements ->
  filter_missing_elevation_loop elements acc
  = Ok (acc ++ List.filter missing_and_resolvable elements).
Proof.
  intros Hty. revert acc.
  induction Hty as [|e rest He _ IH]; intros acc; simpl.
  - now rewrite app_nil_r.
  - unfold missing_and_resolvable at 1, resolves.
    destruct (has_elevation e); simpl; [apply IH|].
    unfold get_coordinates, getitem_type.
    destruct (e_type e) as [t|]; [|congruence].
    destruct (String.eqb t "node").
    { destruct (e_lat e), (e_lon e); rewrite IH; trivial.
      now rewrite <- app_assoc. }
    destruct (String.eqb t "way"); [|apply IH].
    destruct (e_center e) as [c|]; [|apply IH].
    destruct (c_lat c), (c_lon c); rewrite IH; trivial.
    now rewrite <- app_assoc.
Qed.

(** What "a coordinate resolves" means on the fields of the element. *)
Lemma resolves_spec (e : Element) :
  resolves e = true <->
  (e_type e = Some "node" /\ is_Some (e_lat e) /\ is_Some (e_lon e))
  \/ (e_type e = Some "way"
      /\ exists c, e_center e = Some c
                   /\ is_Some (c_lat c) /\ is_Some (c_lon c)).
Proof.
  unfold resolves, get_coordinates, getitem_type.
  destruct (e_type e) as [t|].
  2:{ split; [discriminate|]. intros [[? _]|[? _]]; discriminate. }
  destruct (String.eqb_spec t "node") as [->|Hn].
  { split.
    - destruct (e_lat e), (e_lon e); try discriminate. eauto 6.
    - intros [(_ & [? ->] & [? ->])|[? _]]; [reflexivity|discriminate]. }
  destruct (String.eqb_spec t "way") as [->|Hw].
  { split.
    - destruct (e_center e) as [c|]; [|discriminate].
      destruct (c_lat c) eqn:?, (c_lon c) eqn:?; try discriminate.
      intros _. right. split; [reflexivity|]. exists c. eauto.
    - intros [[? _]|(_ & c & -> & [? ->] & [? ->])];
        [discriminate|reflexivity]. }
  split; [discriminate|].
  intros [[? _]|[? _]]; congruence.
Qed.

Lemma filter_loop_untagged_typed (elements acc : list Element) :
  Forall (fun e => has_elevation e = false -> e_type e <> None) elements ->
  filter_missing_elevation_loop elements acc
  = Ok (acc ++ List.filter missing_and_resolvable elements).
Proof.
  intros Hty. revert acc.
  induction Hty as [|e rest He _ IH]; intros acc; simpl.
  - now rewrite app_nil_r.
  - unfold missing_and_resolvable at 1, resolves.
    destruct (has_elevation e); simpl; [apply IH|].
    specialize (He eq_refl).
    unfold get_coordinates, getitem_type.
    destruct (e_type e) as [t|]; [|congruence].
    destruct (String.eqb t "node").
    { destruct (e_lat e), (e_lon e); rewrite IH; trivial.
      now rewrite <- app_assoc. }
    destruct (String.eqb t "way"); [|apply IH].
    destruct (e_center e) as [c|]; [|apply IH].
    destruct (c_lat c), (c_lon c); rewrite IH; trivial.
    now rewrite <- app_assoc.
Qed.

(** C6, as the code has it: on a list in which every element without an
    [ele] tag carries its "type", [filter_missing_elevation] returns, in
    input order, exactly the elements that have no [ele] tag and whose
    coordinate resolves (a node's own lat/lon, a way's centre): an
    element with [tags.ele] is excluded, and so is an element whose
    coordinate does not resolve.  (On an untagged element without "type"
    the function raises [KeyError].) *)
Theorem filter_missing_elevation_exact (elements : list Element) :
  Forall (fun e => has_elevation e = false -> e_type e <> None) elements ->
  exists kept,
    filter_missing_elevation elements = Ok kept
    /\ kept = List.filter missing_and_resolvable elements
    /\ (forall e, In e kept <->
                  In e elements /\ has_elevation e = false
                  /\ resolves e = true)
    /\ (forall e, has_elevation e = true -> ~ In e kept)
    /\ (forall e, resolves e = false -> ~ In e kept).
Proof.
  intros Hty. exists (List.filter missing_and_resolvable elements).
  assert (Hin : forall e,
             In e (List.filter missing_and_resolvable elements) <->
             In e elements /\ has_elevation e = false /\ resolves e = true).
  { intros e. rewrite List.filter_In. unfold missing_and_resolvable.
    rewrite andb_true_iff, negb_true_iff. tauto. }
  split; [apply (filter_loop_untagged_typed elements [] Hty)|].
  split; [reflexivity|].
  split; [exact Hin|].
  split; intros e He Hk; apply Hin in Hk; destruct Hk as (_ & H1 & H2);
    congruence.
Qed.

Lemma prioritize_loop_filter (elements huts others : list Element) :
  prioritize_alpine_huts_loop elements huts others
  = (huts ++ List.filter is_alpine_hut elements,
     others ++ List.filter (fun e => negb (is_alpine_hut e)) elements).
Proof.
  revert huts others.
  induction elements as [|e rest IH]; intros huts others; simpl.
  - now rewrite !app_nil_r.
  - destruct (is_alpine_hut e); simpl; rewrite IH, <- app_assoc; reflexivity.
Qed.

Lemma filter_sublist (f : Element -> bool) (l : list Element) :
  sublist (List.filter f l) l.
Proof.
  induction l as [|e l IH]; simpl; [constructor|].
  destruct (f e); now constructor.
Qed.

Lemma filter_split_perm (f : Element -> bool) (l : list Element) :
  List.filter f l ++ List.filter (fun e => negb (f e)) l ≡ₚ l.
Proof.
  induction l as [|e l IH]; simpl; [reflexivity|].
  destruct (f e); simpl.
  - now constructor.
  - rewrite <- Permutation_middle. now constructor.
Qed.

(** C7: [prioritize_alpine_huts] is a stable partition by
    [tags.tourism == "alpine_hut"]: the two outputs together are a
    rearrangement of the input, the first holds only alpine huts and the
    second none, so an input element is in exactly one of them, and each
    output keeps the input order. *)
Theorem prioritize_alpine_huts_partition (elements : list Element) :
  let '(huts, others) := prioritize_alpine_huts elements in
  huts = List.filter is_alpine_hut elements
  /\ others = List.filter (fun e => negb (is_alpine_hut e)) elements
  /\ huts ++ others ≡ₚ elements
  /\ Forall (fun e => is_alpine_hut e = true) huts
  /\ Forall (fun e => is_alpine_hut e = false) others
  /\ (forall e, In e elements ->
         (In e huts /\ ~ In e others) \/ (In e others /\ ~ In e huts))
  /\ sublist huts elements
  /\ sublist others elements.
Proof.
  unfold prioritize_alpine_huts. rewrite prioritize_loop_filter. simpl.
  assert (Hh : forall e, In e (List.filter is_alpine_hut elements) <->
                         In e elements /\ is_alpine_hut e = true)
    by (intros; apply List.filter_In).
  assert (Ho : forall e,
             In e (List.filter (fun e => negb (is_alpine_hut e)) elements) <->
             In e elements /\ is_alpine_hut e = false).
  { intros e. rewrite List.filter_In, negb_true_iff. tauto. }
  repeat split.
  - apply filter_split_perm.
  - apply List.Forall_forall. intros e He. now apply Hh in He.
  - apply List.Forall_forall. intros e He. now apply Ho in He.
  - intros e He. destruct (is_alpine_hut e) eqn:E.
    + left. split; [apply Hh; auto|]. intros Hc. apply Ho in Hc.
      destruct Hc; congruence.
    + right. split; [apply Ho; auto|]. intros Hc. apply Hh in Hc.
      destruct Hc; congruence.
  - apply filter_sublist.
  - apply filter_sublist.
Qed.

End FilterSpec.

Lemma PyInt_order : PyNumberOrder PyInt.
Proof.
  split; simpl.
  - intros a. apply Z.ltb_irrefl.
  - intros a b c H1 H2. apply Z.ltb_lt in H1, H2. apply Z.ltb_lt. lia.
Qed.

Lemma filter_missing_elevation_exact_witness :
  let elements := [Samples.node_sample; Samples.tagged_sample;
                   MoreSamples.untyped_tagged_sample;
                   Samples.way_hut_sample; Samples.no_location_sample] in
  Forall (fun e => has_elevation e = false -> e_type e <> None) elements
  /\ filter_missing_elevation elements
     = Ok [Samples.node_sample; Samples.way_hut_sample].
Proof.
  assert (Hty : Forall (fun e : @Element PyInt =>
                          has_elevation e = false -> e_type e <> None)
                  [Samples.node_sample; Samples.tagged_sample;
                   MoreSamples.untyped_tagged_sample;
                   Samples.way_hut_sample; Samples.no_location_sample])
    by (repeat constructor; discriminate).
  split; [exact Hty|].
  destruct (filter_missing_elevation_exact _ Hty) as (kept & -> & -> & _).
  reflexivity.
Defined.

(** The claim C6 as it is written fails on a list that holds an element
    with neither an [ele] tag nor a "type" key: its coordinate does not
    resolve, yet it is not dropped, the whole call raises. *)
Lemma filter_missing_elevation_untyped_counterexample :
  has_elevation MoreSamples.untyped_sample = false
  /\ resolves MoreSamples.untyped_sample = false
  /\ filter_missing_elevation [Samples.node_sample; MoreSamples.untyped_sample]
     = Raise (KeyError "type")
  /\ ~ (exists kept,
          filter_missing_elevation
            [Samples.node_sample; MoreSamples.untyped_sample] = Ok kept).
Proof.
  repeat split. intros [kept H]. discriminate H.
Qed.

(** ** validate.py *)

Section ValidateSpec.
Context {PN : PyNumber}.

Lemma validate_element_valid_errors (self : ElevationValidator)
    (element : Element) :
  valid (validate_element self element) = true ->
  errors (validate_element self element) = [].
Proof.
  unfold validate_element.
  destruct (e_elevation_fetched element) as [v|]; simpl; [|discriminate].
  destruct (num_lt v (min_elevation self)); simpl; [discriminate|].
  destruct (num_gt v (max_elevation self)); simpl; [discriminate|].
  reflexivity.
Qed.

(** C4: [validate_element] over a strict order [<] and bounds with
    [min <= max].  Without [elevation_fetched] the outcome is invalid
    with the single reason "No elevation data"; strictly below the
    minimum it is invalid with the below-minimum reason, which carries
    the value and the bound; strictly above the maximum it is invalid
    with the above-maximum reason; otherwise it is valid, in particular
    at the minimum and at the maximum; a valid outcome has no reason and
    no outcome has more than one. *)
Theorem validate_element_outcome (self : ElevationValidator)
    (element : Element) :
  PyNumberOrder PN ->
  num_lt (max_elevation self) (min_elevation self) = false ->
  let r := validate_element self element in
  (e_elevation_fetched element = None ->
     valid r = false /\ errors r = ["No elevation data"%string])
  /\ (forall v, e_elevation_fetched element = Some v ->
       num_lt v (min_elevation self) = true ->
       valid r = false
       /\ errors r = [("Elevation " ++ num_str v ++ "m below minimum "
                       ++ num_str (min_elevation self) ++ "m")%string])
  /\ (forall v, e_elevation_fetched element = Some v ->
       num_gt v (max_elevation self) = true ->
       valid r = false
       /\ errors r = [("Elevation " ++ num_str v ++ "m above maximum "
                       ++ num_str (max_elevation self) ++ "m")%string])
  /\ (forall v, e_elevation_fetched element = Some v ->
       num_lt v (min_elevation self) = false ->
       num_gt v (max_elevation self) = false ->
       valid r = true /\ errors r = [])
  /\ (e_elevation_fetched element = Some (min_elevation self) ->
       valid r = true)
  /\ (e_elevation_fetched element = Some (max_elevation self) ->
       valid r = true)
  /\ (valid r = true -> errors r = [])
  /\ (length (errors r) <= 1)%nat.
Proof.
  intros [Hirr Htr] Hb r. subst r.
  pose proof (validate_element_valid_errors self element) as Hve.
  unfold validate_element, num_gt in *.
  split; [intros ->; split; reflexivity|].
  split; [intros v -> Hlt; rewrite Hlt; split; reflexivity|].
  split.
  { intros v -> Hgt. destruct (num_lt v (min_elevation self)) eqn:E.
    - rewrite (Htr _ _ _ Hgt E) in Hb. discriminate.
    - rewrite Hgt. split; reflexivity. }
  split; [intros v -> H1 H2; rewrite H1, H2; split; reflexivity|].
  split; [intros ->; now rewrite Hirr, Hb|].
  split; [intros ->; now rewrite Hb, Hirr|].
  split; [exact Hve|].
  destruct (e_elevation_fetched element) as [v|]; simpl; [|lia].
  destruct (num_lt v (min_elevation self)); simpl; [lia|].
  destruct (num_lt (max_elevation self) v); simpl; lia.
Qed.

Lemma validate_elements_loop_filter (self : ElevationValidator)
    (elements vs : list Element) (ivs : list invalid_entry) :
  validate_elements_loop self elements vs ivs
  = {| res_valid := vs ++ List.filter (is_valid self) elements;
       res_invalid :=
         ivs ++ List.map
                  (fun e => {| inv_element := e;
                               inv_validation := validate_element self e |})
                  (List.filter (fun e => negb (is_valid self e)) elements) |}.
Proof.
  revert vs ivs.
  induction elements as [|e rest IH]; intros vs ivs; simpl.
  - now rewrite !app_nil_r.
  - change (valid (validate_element self e)) with (is_valid self e).
    destruct (is_valid self e); simpl; rewrite IH, <- ?app_assoc;
      reflexivity.
Qed.

Lemma filter_filter_same (f : Element -> bool) (l : list Element) :
  List.filter f (List.filter f l) = List.filter f l.
Proof.
  induction l as [|e l IH]; simpl; [reflexivity|].
  destruct (f e) eqn:E; simpl; [rewrite E|]; congruence.
Qed.

Lemma filter_filter_neg (f : Element -> bool) (l : list Element) :
  List.filter (fun e => negb (f e)) (List.filter f l) = [].
Proof.
  induction l as [|e l IH]; simpl; [reflexivity|].
  destruct (f e) eqn:E; simpl; [rewrite E|]; auto.
Qed.

Lemma validate_elements_again (self : ElevationValidator)
    (elements : list Element) :
  validate_elements self (res_valid (validate_elements self elements))
  = {| res_valid := res_valid (validate_elements self elements);
       res_invalid := [] |}.
Proof.
  unfold validate_elements. rewrite !validate_elements_loop_filter. simpl.
  now rewrite filter_filter_same, filter_filter_neg.
Qed.

(** C8: validating the valid elements of an earlier validation, with the
    same bounds, classifies each of them valid again: the valid list is
    reproduced and the invalid list is empty.  Through [validate_all]
    the same holds category by category, a category whose valid list is
    empty getting no entry in the second run. *)
Theorem validate_idempotent_on_valid (self : ElevationValidator) :
  (forall elements,
      let first := validate_elements self elements in
      validate_elements self (res_valid first)
      = {| res_valid := res_valid first; res_invalid := [] |}
      /\ Forall (fun e => valid (validate_element self e) = true)
           (res_valid first))
  /\ (forall (data : gmap string (list Element)) (category : string),
       let first := validate_all self data in
       let second := validate_all self (valid_elements_of first) in
       second !! category
       = match first !! category with
         | Some r =>
             match res_valid r with
             | [] => None
             | _ => Some {| res_valid := res_valid r; res_invalid := [] |}
             end
         | None => None
         end).
Proof.
  split.
  - intros elements first. split; [apply validate_elements_again|].
    subst first. unfold validate_elements.
    rewrite validate_elements_loop_filter. simpl.
    apply List.Forall_forall. intros e He.
    apply List.filter_In in He. apply He.
  - intros data category first second. subst first second.
    unfold validate_all, valid_elements_of.
    rewrite lookup_omap, lookup_fmap, lookup_omap.
    destruct (data !! category) as [[|e l]|]; simpl; try reflexivity.
    rewrite validate_elements_again.
    destruct (res_valid (validate_elements self (e :: l))); reflexivity.
Qed.

End ValidateSpec.

Lemma validate_element_outcome_witness :
  let self := @ElevationValidator_default PyInt in
  PyNumberOrder PyInt
  /\ num_lt (max_elevation self) (min_elevation self) = false
  /\ valid (validate_element self Samples.tagged_sample) = true
  /\ errors (validate_element self Samples.high_sample)
     = ["Elevation 3000m above maximum 2600m"%string].
Proof.
  split; [exact PyInt_order|]. split; [reflexivity|].
  pose proof (validate_element_outcome
                (@ElevationValidator_default PyInt) Samples.tagged_sample
                PyInt_order eq_refl) as Ht.
  pose proof (validate_element_outcome
                (@ElevationValidator_default PyInt) Samples.high_sample
                PyInt_order eq_refl) as Hh.
  split.
  - apply Ht with (v := 850); reflexivity.
  - apply Hh with (v := 3000); reflexivity.
Defined.

(** ** enrich.py *)

Section EnrichSpec.
Context {PN : PyNumber}.

(** [get_elevation] never raises and sends exactly one request. *)
Lemma get_elevation_effect (self : ElevationEnricher) (lat lon : num)
    (w : enrich_world) :
  exists elevation,
    get_elevation self lat lon w
    = (Ok elevation,
       {| backend := backend w;
          lookups := lookups w ++ [request_of self lat lon];
          sleeps := sleeps w |}).
Proof.
  unfold get_elevation, bind, http, request_of.
  destruct (backend w (lookups w) _) as [data|]; [|eexists; reflexivity].
  destruct (String.eqb (api_type self) "opentopo");
    [|eexists; reflexivity].
  destruct (status data) as [st|]; [|eexists; reflexivity].
  destruct (String.eqb st "OK"); eexists; reflexivity.
Qed.

Lemma enrich_element_resolved (self : ElevationEnricher) (element : Element)
    (lat lon : num) (w : enrich_world) :
  get_coordinates element = Ok (Some lat, Some lon) ->
  exists elevation,
    get_elevation self lat lon w
    = (Ok elevation,
       {| backend := backend w;
          lookups := lookups w ++ [request_of self lat lon];
          sleeps := sleeps w |})
    /\ enrich_element self element w
       = (Ok (Some match elevation with
                   | Some v => set_elevation element v
                   | None => element
                   end),
          {| backend := backend w;
             lookups := lookups w ++ [request_of self lat lon];
             sleeps := sleeps w ++ [rate_limit self] |}).
Proof.
  intros Hc.
  destruct (get_elevation_effect self lat lon w) as [elevation Hg].
  exists elevation. split; [exact Hg|].
  unfold get_coordinates in Hc. unfold enrich_element.
  destruct (getitem_type element) as [t|]; [|discriminate].
  destruct (String.eqb t "node").
  { injection Hc as -> ->. unfold bind. rewrite Hg. reflexivity. }
  destruct (String.eqb t "way"); [|discriminate].
  destruct (e_center element) as [c|]; [|discriminate].
  injection Hc as -> ->. unfold bind. rewrite Hg. reflexivity.
Qed.

Lemma enrich_element_unresolved (self : ElevationEnricher)
    (element : Element) (lat lon : option num) (w : enrich_world) :
  get_coordinates element = Ok (lat, lon) ->
  lat = None \/ lon = None ->
  enrich_element self element w = (Ok None, w).
Proof.
  intros Hc Hn. unfold get_coordinates in Hc. unfold enrich_element.
  destruct (getitem_type element) as [t|]; [|discriminate].
  destruct (String.eqb t "node").
  { injection Hc as -> ->.
    destruct lat, lon; destruct Hn; try discriminate; reflexivity. }
  destruct (String.eqb t "way"); [|reflexivity].
  destruct (e_center element) as [c|]; [|reflexivity].
  injection Hc as -> ->.
  destruct lat, lon; destruct Hn; try discriminate; reflexivity.
Qed.

Lemma set_elevation_tags (element : Element) (v : num) :
  exists tags,
    e_tags (set_elevation element v) = Some tags
    /\ tags !! "ele"%string = Some (num_str (num_round1 v))
    /\ tags !! "ele:source"%string = Some "SRTM"%string.
Proof.
  unfold set_elevation. simpl. eexists. split; [reflexivity|].
  split.
  - rewrite lookup_insert_ne by discriminate. apply lookup_insert_eq.
  - apply lookup_insert_eq.
Qed.

(** C3, as the code has it: for an element whose coordinate resolves,
    [enrich_element] sends exactly one lookup, for that coordinate, and
    sleeps [rate_limit] once; when the lookup gives [V] the result has
    [tags.ele] equal to [str(round(V, 1))], [tags.ele:source] equal to
    "SRTM" and [elevation_fetched] equal to [V]; when the lookup gives
    nothing the element is returned as it was; an element that carries
    its "type" and whose coordinate does not resolve gives [None], with
    no lookup; an element without "type" raises [KeyError], with no
    lookup either. *)
Theorem enrich_element_spec (self : ElevationEnricher) (element : Element)
    (w : enrich_world) :
  (forall lat lon,
      get_coordinates element = Ok (Some lat, Some lon) ->
      exists elevation element' w',
        fst (get_elevation self lat lon w) = Ok elevation
        /\ enrich_element self element w = (Ok (Some element'), w')
        /\ lookups w' = lookups w ++ [request_of self lat lon]
        /\ sleeps w' = sleeps w ++ [rate_limit self]
        /\ (forall v, elevation = Some v ->
              e_elevation_fetched element' = Some v
              /\ exists tags,
                  e_tags element' = Some tags
                  /\ tags !! "ele"%string = Some (num_str (num_round1 v))
                  /\ tags !! "ele:source"%string = Some "SRTM"%string)
        /\ (elevation = None -> element' = element))
  /\ (forall lat lon,
        get_coordinates element = Ok (lat, lon) ->
        lat = None \/ lon = None ->
        enrich_element self element w = (Ok None, w))
  /\ (e_type element <> None -> resolves element = false ->
      enrich_element self element w = (Ok None, w))
  /\ (e_type element = None ->
      enrich_element self element w = (Raise (KeyError "type"), w)).
Proof.
  split; [|split; [|split]].
  - intros lat lon Hc.
    destruct (enrich_element_resolved self element lat lon w Hc)
      as (elevation & Hg & He).
    exists elevation. eexists. eexists.
    split; [rewrite Hg; reflexivity|].
    split; [exact He|]. simpl.
    split; [reflexivity|]. split; [reflexivity|].
    split.
    + intros v ->. split; [reflexivity|]. apply set_elevation_tags.
    + intros ->. reflexivity.
  - intros lat lon Hc Hn. eapply enrich_element_unresolved; eauto.
  - intros Hty Hr. unfold resolves in Hr.
    destruct (get_coordinates element) as [[lat lon]|x] eqn:E.
    + eapply enrich_element_unresolved; [exact E|].
      destruct lat, lon; auto; discriminate.
    + exfalso. unfold get_coordinates, getitem_type in E.
      destruct (e_type element); [|congruence].
      destruct (String.eqb _ _); [discriminate|].
      destruct (String.eqb _ _); [|discriminate].
      destruct (e_center element); discriminate.
  - intros Hn. unfold enrich_element, getitem_type. now rewrite Hn.
Qed.

Lemma reached_nil (max_count : option Z) (count : Z) :
  reached max_count count [] = [].
Proof.
  unfold reached. destruct max_count as [m|]; [|reflexivity].
  destruct (m =? 0); [reflexivity|]. now destruct (Z.to_nat (m - count)).
Qed.

Lemma reached_stop (max_count : option Z) (count : Z) (l : list Element) :
  limit_reached max_count count = true -> reached max_count count l = [].
Proof.
  unfold limit_reached, reached. destruct max_count as [m|]; [|discriminate].
  destruct (m =? 0); simpl; [discriminate|]. intros H.
  apply Z.leb_le in H. replace (Z.to_nat (m - count)) with 0%nat by lia.
  reflexivity.
Qed.

Lemma reached_cons (max_count : option Z) (count : Z) (e : Element)
    (l : list Element) :
  limit_reached max_count count = false ->
  reached max_count count (e :: l) = e :: reached max_count (count + 1) l.
Proof.
  unfold limit_reached, reached. destruct max_count as [m|]; [|reflexivity].
  destruct (m =? 0); simpl; [reflexivity|]. intros H.
  apply Z.leb_gt in H.
  replace (Z.to_nat (m - count)) with (S (Z.to_nat (m - (count + 1))))
    by lia.
  reflexivity.
Qed.

Lemma resolves_true (e : Element) :
  resolves e = true ->
  exists lat lon, get_coordinates e = Ok (Some lat, Some lon).
Proof.
  unfold resolves.
  destruct (get_coordinates e) as [[[lat|] [lon|]]|]; try discriminate.
  eauto.
Qed.

Lemma resolves_false (e : Element) :
  e_type e <> None -> resolves e = false ->
  exists lat lon, get_coordinates e = Ok (lat, lon)
                  /\ (lat = None \/ lon = None).
Proof.
  unfold resolves. intros Hty.
  destruct (get_coordinates e) as [[[lat|] [lon|]]|x] eqn:E;
    try discriminate; eauto 6.
  unfold get_coordinates, getitem_type in E.
  destruct (e_type e); [|congruence].
  destruct (String.eqb _ _); [discriminate|].
  destruct (String.eqb _ _); [|discriminate].
  destruct (e_center e); discriminate.
Qed.

Lemma get_coordinates_typed (e : Element) (c : option num * option num) :
  get_coordinates e = Ok c -> e_type e <> None.
Proof.
  unfold get_coordinates, getitem_type. destruct (e_type e); discriminate.
Qed.

Lemma typed_truthy (e : Element) : e_type e <> None -> dict_truthy e = true.
Proof. unfold dict_truthy. destruct (e_type e); [reflexivity|congruence]. Qed.

(** The loop of [enrich_elements] from any state: it appends one output
    per resolvable element it reaches, in input order, and sends one
    lookup per output. *)
Lemma enrich_elements_loop_spec (self : ElevationEnricher)
    (max_count : option Z) (elements : list Element) :
  Forall (fun e => e_type e <> None) elements ->
  forall (enriched : list Element) (count : Z) (w : enrich_world),
  exists out w',
    enrich_elements_loop self max_count elements enriched count w
    = (Ok (enriched ++ out), w')
    /\ Forall2 enriched_from
         (reached max_count count (List.filter resolves elements)) out
    /\ length (lookups w') = (length (lookups w) + length out)%nat
    /\ length (sleeps w') = (length (sleeps w) + length out)%nat.
Proof.
  induction 1 as [|e rest Hty _ IH]; intros enriched count w.
  - exists [], w. simpl. rewrite app_nil_r, reached_nil.
    repeat split; auto; constructor.
  - simpl. destruct (limit_reached max_count count) eqn:Hl.
    { exists [], w. rewrite app_nil_r, (reached_stop _ _ _ Hl).
      repeat split; auto; constructor. }
    destruct (resolves e) eqn:Hr.
    + destruct (resolves_true e Hr) as (lat & lon & Hc).
      destruct (enrich_element_resolved self e lat lon w Hc)
        as (elevation & _ & He).
      unfold bind. rewrite He.
      set (e' := match elevation with
                 | Some v => set_elevation e v
                 | None => e
                 end).
      assert (Hfrom : enriched_from e e').
      { subst e'. destruct elevation; [right; eauto|left; reflexivity]. }
      assert (Ht : dict_truthy e' = true).
      { apply typed_truthy. subst e'. now destruct elevation. }
      rewrite Ht.
      edestruct (IH (enriched ++ [e']) (count + 1)) as (out & w' & Hrun & Hf & Hlk & Hsl).
      exists (e' :: out), w'. rewrite Hrun, <- app_assoc.
      split; [reflexivity|].
      rewrite (reached_cons _ _ _ _ Hl).
      split; [now constructor|].
      simpl in *. rewrite length_app in Hlk, Hsl. simpl in *.
      split; lia.
    + destruct (resolves_false e Hty Hr) as (lat & lon & Hc & Hn).
      unfold bind. rewrite (enrich_element_unresolved self e lat lon w Hc Hn).
      apply IH.
Qed.

Lemma filter_all_true (f : Element -> bool) (l : list Element) :
  Forall (fun e => f e = true) l -> List.filter f l = l.
Proof.
  induction 1 as [|e l He _ IH]; simpl; [reflexivity|].
  now rewrite He, IH.
Qed.

(** C5, for a limit of at least 1 and elements that carry their "type":
    [enrich_elements] goes through the input in order and stops once it
    has produced [max_count] outputs.  The outputs are those of the
    first [max_count] elements whose coordinate resolves, each one
    either mutated or passed through as it was, and each counts; one
    lookup is sent per output.  When every element resolves, these are
    the first [max_count] elements of the input. *)
Theorem enrich_elements_limit (self : ElevationEnricher)
    (elements : list Element) (m : Z) (w : enrich_world) :
  1 <= m ->
  Forall (fun e => e_type e <> None) elements ->
  exists out w',
    enrich_elements self elements (Some m) w = (Ok out, w')
    /\ Forall2 enriched_from
         (take (Z.to_nat m) (List.filter resolves elements)) out
    /\ length out
       = Nat.min (Z.to_nat m) (length (List.filter resolves elements))
    /\ length (lookups w') = (length (lookups w) + length out)%nat
    /\ (Forall (fun e => resolves e = true) elements ->
        Forall2 enriched_from (take (Z.to_nat m) elements) out).
Proof.
  intros Hm Hty.
  destruct (enrich_elements_loop_spec self (Some m) elements Hty [] 0 w)
    as (out & w' & Hrun & Hf & Hlk & _).
  exists out, w'. unfold enrich_elements. rewrite Hrun. simpl.
  unfold reached in Hf. replace (m =? 0) with false in Hf by lia.
  rewrite Z.sub_0_r in Hf.
  split; [reflexivity|]. split; [exact Hf|].
  split.
  { apply Forall2_length in Hf. rewrite <- Hf. apply length_take. }
  split; [exact Hlk|].
  intros Hall. now rewrite (filter_all_true _ _ Hall) in Hf.
Qed.

Lemma enrich_elements_loop_zero (self : ElevationEnricher)
    (elements enriched : list Element) (count : Z) (w : enrich_world) :
  enrich_elements_loop self (Some 0) elements enriched count w
  = enrich_elements_loop self None elements enriched count w.
Proof.
  revert enriched count w.
  induction elements as [|e rest IH]; intros enriched count w; simpl;
    [reflexivity|].
  unfold bind. destruct (enrich_element self e w) as [[[e'|]|x] w'];
    [|apply IH|reflexivity].
  destruct (dict_truthy e'); apply IH.
Qed.

(** C10: with [max_count] equal to 0, [enrich_elements] does what it
    does with no limit, on every input and world; on elements that carry
    their "type" it therefore produces one output for every element whose
    coordinate resolves. *)
Theorem enrich_elements_zero_limit (self : ElevationEnricher)
    (elements : list Element) (w : enrich_world) :
  enrich_elements self elements (Some 0) w
  = enrich_elements self elements None w
  /\ (Forall (fun e => e_type e <> None) elements ->
      exists out w',
        enrich_elements self elements (Some 0) w = (Ok out, w')
        /\ Forall2 enriched_from (List.filter resolves elements) out
        /\ length (lookups w') = (length (lookups w) + length out)%nat).
Proof.
  split; [apply enrich_elements_loop_zero|].
  intros Hty.
  destruct (enrich_elements_loop_spec self (Some 0) elements Hty [] 0 w)
    as (out & w' & Hrun & Hf & Hlk & _).
  exists out, w'. unfold enrich_elements. rewrite Hrun. auto.
Qed.

End EnrichSpec.

Lemma enrich_element_spec_witness :
  get_coordinates Samples.node_sample = Ok (Some 45, Some 25)
  /\ exists element' w',
      enrich_element Samples.enricher Samples.node_sample Samples.flat_world
      = (Ok (Some element'), w')
      /\ e_elevation_fetched element' = Some 850
      /\ length (lookups w') = 1%nat.
Proof.
  split; [reflexivity|].
  destruct (proj1 (@enrich_element_spec PyInt Samples.enricher
                     Samples.node_sample Samples.flat_world)
              45 25 eq_refl)
    as (elevation & element' & w' & Hg & He & Hl & _ & Hv & _).
  exists element', w'. split; [exact He|].
  split; [|rewrite Hl; reflexivity].
  apply Hv. vm_compute in Hg. now injection Hg as <-.
Defined.

(** The claim C3 as it is written fails on an element without a "type"
    key: its coordinate does not resolve, yet [enrich_element] does not
    return [None], it raises. *)
Lemma enrich_element_untyped_counterexample :
  resolves MoreSamples.untyped_sample = false
  /\ enrich_element Samples.enricher MoreSamples.untyped_sample
       Samples.flat_world
     = (Raise (KeyError "type"), Samples.flat_world)
  /\ enrich_element Samples.enricher MoreSamples.untyped_sample
       Samples.flat_world
     <> (Ok None, Samples.flat_world).
Proof. repeat split. discriminate. Qed.

Lemma enrich_elements_limit_witness :
  let elements := [Samples.node_sample; Samples.no_location_sample;
                   Samples.way_hut_sample; Samples.tagged_sample] in
  1 <= 2
  /\ Forall (fun e => e_type e <> None) elements
  /\ exists out w',
      enrich_elements Samples.enricher elements (Some 2) Samples.flat_world
      = (Ok out, w')
      /\ length out = 2%nat
      /\ length (lookups w') = 2%nat.
Proof.
  assert (Hty : Forall (fun e : @Element PyInt => e_type e <> None)
                  [Samples.node_sample; Samples.no_location_sample;
                   Samples.way_hut_sample; Samples.tagged_sample])
    by all_typed.
  split; [lia|]. split; [exact Hty|].
  destruct (@enrich_elements_limit PyInt Samples.enricher _ 2
              Samples.flat_world ltac:(lia) Hty)
    as (out & w' & Hrun & _ & Hlen & Hlk & _).
  exists out, w'. split; [exact Hrun|].
  split; [exact Hlen|]. rewrite Hlk, Hlen. reflexivity.
Defined.

(** The claim C5 as it is written fails twice: a given limit of 0 does not
    stop the run, and an element whose coordinate does not resolve is
    processed without giving an output. *)
Lemma enrich_elements_limit_counterexample :
  (exists out w',
      enrich_elements Samples.enricher [Samples.node_sample] (Some 0)
        Samples.offline_world = (Ok out, w')
      /\ (length out > Z.to_nat 0)%nat)
  /\ enrich_elements Samples.enricher [Samples.no_location_sample] (Some 5)
       Samples.offline_world = (Ok [], Samples.offline_world).
Proof.
  split; [|reflexivity].
  eexists. eexists. split; [reflexivity|]. simpl. lia.
Qed.

Lemma enrich_elements_zero_limit_witness :
  let elements := [Samples.node_sample; Samples.no_location_sample;
                   Samples.way_hut_sample] in
  Forall (fun e => e_type e <> None) elements
  /\ exists out w',
      enrich_elements Samples.enricher elements (Some 0) Samples.flat_world
      = (Ok out, w')
      /\ length out = 2%nat.
Proof.
  assert (Hty : Forall (fun e : @Element PyInt => e_type e <> None)
                  [Samples.node_sample; Samples.no_location_sample;
                   Samples.way_hut_sample])
    by all_typed.
  split; [exact Hty|].
  destruct (proj2 (@enrich_elements_zero_limit PyInt Samples.enricher _
                     Samples.flat_world) Hty)
    as (out & w' & Hrun & Hf & _).
  exists out, w'. split; [exact Hrun|].
  apply Forall2_length in Hf. rewrite <- Hf. reflexivity.
Defined.

(** ** upload.py *)

Section UploadSpec.
Context {PN : PyNumber}.

Lemma dict_has_false {V} (k : string) (d : gmap string V) :
  d !! k = None -> dict_has k d = false.
Proof. unfold dict_has. now intros ->. Qed.

Lemma dict_has_true {V} (k : string) (d : gmap string V) :
  is_Some (d !! k) -> dict_has k d = true.
Proof. unfold dict_has. now intros [v ->]. Qed.

(** C2, as the code has it.  In dry-run and in live mode alike,
    [upload_element] fails at once, the store untouched, when the id is
    absent or 0, when the type is absent or empty, or when [tags] has no
    "ele" or no "ele:source"; in dry-run mode an element with a non-zero
    id, a non-empty type and both tags gives [(True, "Dry-run
    successful")], the store untouched. *)
Theorem upload_element_preconditions (self : OSMUploader)
    (element : Element) (comment : string) (w : upload_world) :
  (truthy_int (e_id element) = false \/ truthy_str (e_type element) = false ->
   upload_element self element comment w
   = ((false, "Missing element ID or type"%string), w))
  /\ (e_id element = None \/ e_type element = None ->
      upload_element self element comment w
      = ((false, "Missing element ID or type"%string), w))
  /\ (tags_of element !! "ele"%string = None
      \/ tags_of element !! "ele:source"%string = None ->
      exists message,
        upload_element self element comment w = ((false, message), w))
  /\ (dry_run self = true ->
      truthy_int (e_id element) = true ->
      truthy_str (e_type element) = true ->
      is_Some (tags_of element !! "ele"%string) ->
      is_Some (tags_of element !! "ele:source"%string) ->
      upload_element self element comment w
      = ((true, "Dry-run successful"%string), w)).
Proof.
  assert (H1 : truthy_int (e_id element) = false
               \/ truthy_str (e_type element) = false ->
               upload_element self element comment w
               = ((false, "Missing element ID or type"%string), w)).
  { intros H. unfold upload_element.
    destruct H as [-> | ->]; simpl; [reflexivity|].
    now rewrite orb_true_r. }
  split; [exact H1|].
  split.
  { intros [H | H]; apply H1; rewrite H; auto. }
  split.
  - intros H. unfold upload_element.
    destruct (negb (truthy_int (e_id element))
              || negb (truthy_str (e_type element))); [eauto|].
    destruct H as [H | H]; rewrite (dict_has_false _ _ H); simpl;
      rewrite ?orb_true_r; eauto.
  - intros Hd Hi Ht He Hs. unfold upload_element.
    rewrite Hi, Ht, (dict_has_true _ _ He), (dict_has_true _ _ Hs). simpl.
    destruct (e_id element); [|discriminate].
    destruct (e_type element); [|discriminate].
    destruct He as [v ->]. now rewrite Hd.
Qed.

Lemma upload_loop_trace (self : OSMUploader) (elements : list Element) :
  forall (stats : upload_stats) (w : upload_world),
    upload_elements_loop self elements stats w
    = let '(trace, w') := upload_trace self elements w in
      ({| total := total stats;
          successful :=
            successful stats
            + Z.of_nat (length (List.filter succeeded trace));
          failed :=
            failed stats
            + Z.of_nat (length (List.filter
                                  (fun r => negb (succeeded r)) trace));
          upload_errors :=
            upload_errors stats
            ++ List.map error_entry
                 (List.filter (fun r => negb (succeeded r)) trace) |},
       w').
Proof.
  induction elements as [|e rest IH]; intros stats w; simpl.
  - rewrite !Z.add_0_r, app_nil_r. now destruct stats.
  - destruct (upload_element self e "Add elevation data" w)
      as [[success message] w1].
    rewrite IH. destruct (upload_trace self rest w1) as [rs w2].
    cbn [List.filter].
    change (succeeded (e, (success, message))) with success.
    destruct success;
      cbn [negb List.map length error_entry fst snd
           total successful failed upload_errors];
      rewrite ?Nat2Z.inj_succ, <- ?app_assoc; f_equal; f_equal;
      try reflexivity; lia.
Qed.

Lemma upload_trace_elements (self : OSMUploader) (elements : list Element)
    (w : upload_world) :
  List.map fst (fst (upload_trace self elements w)) = elements.
Proof.
  revert w. induction elements as [|e rest IH]; intros w; simpl;
    [reflexivity|].
  destruct (upload_element self e "Add elevation data" w) as [r w1].
  specialize (IH w1). destruct (upload_trace self rest w1) as [rs w2].
  simpl in *. now rewrite IH.
Qed.

Lemma filter_split_length {A} (f : A -> bool) (l : list A) :
  (length (List.filter f l)
   + length (List.filter (fun x => negb (f x)) l))%nat = length l.
Proof.
  induction l as [|x l IH]; simpl; [reflexivity|].
  destruct (f x); simpl; lia.
Qed.

(** C9: the statistics of [upload_elements].  [total] is the length of
    the input and the sum of [successful] and [failed]; the loop handles
    the elements in order, one result each, and [errors] holds, in that
    order, exactly one entry per failed result, with the id of its
    element and its message. *)
Theorem upload_elements_stats (self : OSMUploader) (elements : list Element)
    (w : upload_world) :
  let stats := fst (upload_elements self elements w) in
  let trace := fst (upload_trace self elements w) in
  total stats = Z.of_nat (length elements)
  /\ total stats = successful stats + failed stats
  /\ List.map fst trace = elements
  /\ successful stats = Z.of_nat (length (List.filter succeeded trace))
  /\ failed stats
     = Z.of_nat (length (List.filter (fun r => negb (succeeded r)) trace))
  /\ upload_errors stats
     = List.map error_entry
         (List.filter (fun r => negb (succeeded r)) trace)
  /\ Z.of_nat (length (upload_errors stats)) = failed stats
  /\ snd (upload_elements self elements w)
     = snd (upload_trace self elements w).
Proof.
  intros stats trace. subst stats trace. unfold upload_elements.
  rewrite upload_loop_trace.
  pose proof (upload_trace_elements self elements w) as Hm.
  destruct (upload_trace self elements w) as [trace w']. simpl in *.
  pose proof (filter_split_length succeeded trace) as Hl.
  assert (length trace = length elements)
    by (rewrite <- Hm; now rewrite length_map).
  repeat split; try lia.
  - exact Hm.
  - rewrite length_map. lia.
Qed.

End UploadSpec.

(** The claim C2 as it is written fails on an element that carries an id
    of 0 with its type and both tags: the dry run reports a failure. *)
Lemma upload_element_zero_id_counterexample :
  e_id Samples.zero_id_sample = Some 0
  /\ e_type Samples.zero_id_sample = Some "node"%string
  /\ tags_of Samples.zero_id_sample !! "ele"%string = Some "850"%string
  /\ tags_of Samples.zero_id_sample !! "ele:source"%string
     = Some "SRTM"%string
  /\ upload_element Samples.dry_uploader Samples.zero_id_sample
       "Add elevation data" Samples.accepting_world
     = ((false, "Missing element ID or type"%string),
        Samples.accepting_world).
Proof. repeat split. Qed.

Lemma upload_element_preconditions_witness :
  tags_of Samples.untagged_source_sample !! "ele:source"%string = None
  /\ (exists message,
        upload_element Samples.live_uploader Samples.untagged_source_sample
          "Add elevation data" Samples.accepting_world
        = ((false, message), Samples.accepting_world))
  /\ dry_run Samples.dry_uploader = true
  /\ upload_element Samples.dry_uploader Samples.tagged_sample
       "Add elevation data" Samples.accepting_world
     = ((true, "Dry-run successful"%string), Samples.accepting_world).
Proof.
  pose proof (@upload_element_preconditions PyInt Samples.live_uploader
                Samples.untagged_source_sample "Add elevation data"
                Samples.accepting_world) as (_ & _ & Hl & _).
  pose proof (@upload_element_preconditions PyInt Samples.dry_uploader
                Samples.tagged_sample "Add elevation data"
                Samples.accepting_world) as (_ & _ & _ & Hd).
  split; [reflexivity|].
  split; [apply Hl; right; reflexivity|].
  split; [reflexivity|].
  apply Hd; try reflexivity; eexists; reflexivity.
Defined.

(** ** main.py *)

Lemma OSMUploader_init_live_without_credentials
    (username password : option string) :
  truthy_str username = false \/ truthy_str password = false ->
  OSMUploader_init username password false
  = Raise (ValueError "Username and password required for actual upload").
Proof.
  unfold OSMUploader_init. simpl.
  destruct username as [u|], password as [p|]; try reflexivity.
  intros [-> | ->]; simpl; [reflexivity|]. now rewrite orb_true_r.
Qed.

Lemma OSMUploader_init_live_with_credentials (u p : string) :
  u <> ""%string -> p <> ""%string ->
  OSMUploader_init (Some u) (Some p) false
  = Ok {| dry_run := false; username := Some u; password := Some p;
          api := Some {| api_username := u; api_password := p |} |}.
Proof.
  intros Hu Hp. unfold OSMUploader_init. simpl.
  apply String.eqb_neq in Hu, Hp. now rewrite Hu, Hp.
Qed.

(** C1: what [main] does when the upload stage is requested.  Whatever
    the options, [dry_run] is computed as [True]: the test that reports
    the configuration error is never taken and the uploader is built in
    dry-run mode.  [main.py --upload] alone, and with credentials, both
    end in a dry run. *)
Theorem main_upload_always_dry_run (args : Args) :
  main_upload args
  = (if arg_all args || arg_upload args
     then RunUpload true (arg_username args) (arg_password args)
     else NotRequested)
  /\ main_upload args <> ConfigurationError
  /\ main_uploader args
     = (if arg_all args || arg_upload args
        then Some (Ok {| dry_run := true;
                         username := arg_username args;
                         password := arg_password args;
                         api := None |})
        else None)
  /\ main_upload Samples.upload_only = RunUpload true None None
  /\ main_upload Samples.upload_with_credentials
     = RunUpload true (Some "mapper"%string) (Some "secret"%string).
Proof.
  assert (H : main_upload args
              = (if arg_all args || arg_upload args
                 then RunUpload true (arg_username args) (arg_password args)
                 else NotRequested)).
  { unfold main_upload.
    destruct (arg_all args || arg_upload args); [|reflexivity].
    now destruct (arg_dry_run args). }
  split; [exact H|].
  split.
  { rewrite H. now destruct (arg_all args || arg_upload args). }
  split.
  { unfold main_uploader. rewrite H.
    now destruct (arg_all args || arg_upload args). }
  split; reflexivity.
Qed.

(** * Further properties of the pipeline *)

(** ** filter.py *)

Section FilterMore.
Context {PN : PyNumber}.

Lemma filter_loop_outcome (elements acc : list Element) :
  filter_missing_elevation_loop elements acc
  = if existsb (fun e => negb (has_elevation e) && negb (present (e_type e)))
         elements
    then Raise (KeyError "type")
    else Ok (acc ++ List.filter missing_and_resolvable elements).
Proof.
  revert acc. induction elements as [|e rest IH]; intros acc; simpl.
  - now rewrite app_nil_r.
  - unfold missing_and_resolvable at 1, resolves.
    destruct (has_elevation e); simpl; [apply IH|].
    unfold get_coordinates, getitem_type.
    destruct (e_type e) as [t|]; simpl; [|reflexivity].
    destruct (String.eqb t "node").
    { destruct (e_lat e), (e_lon e); rewrite IH;
        destruct (existsb _ rest); trivial.
      now rewrite <- app_assoc. }
    destruct (String.eqb t "way"); [|apply IH].
    destruct (e_center e) as [c|]; [|apply IH].
    destruct (c_lat c), (c_lon c); rewrite IH;
      destruct (existsb _ rest); trivial.
    now rewrite <- app_assoc.
Qed.

(** X1: [filter_missing_elevation] raises [KeyError("type")] exactly when some
    element without an [ele] tag has no "type" key (an element that has
    the tag is skipped before its type is read); in every other case it
    returns the untagged elements whose coordinate resolves. *)
Theorem filter_missing_elevation_outcome (elements : list Element) :
  filter_missing_elevation elements
  = if existsb (fun e => negb (has_elevation e) && negb (present (e_type e)))
         elements
    then Raise (KeyError "type")
    else Ok (List.filter missing_and_resolvable elements).
Proof. apply filter_loop_outcome. Qed.

(** X4: [get_coordinates] raises [KeyError("type")] exactly when the element
    has no "type" key.  A node gives its own lat and lon, whatever its
    centre; a way gives those of its centre, whatever lat and lon it has
    itself, and nothing without a centre; any other type gives nothing.
    So a coordinate resolves exactly for a node with both lat and lon
    and for a way whose centre has both. *)
Theorem get_coordinates_outcome (element : Element) :
  (get_coordinates element = Raise (KeyError "type") <->
   e_type element = None)
  /\ (e_type element = Some "node"%string ->
      get_coordinates element = Ok (e_lat element, e_lon element))
  /\ (e_type element = Some "way"%string ->
      get_coordinates element
      = Ok match e_center element with
           | Some c => (c_lat c, c_lon c)
           | None => (None, None)
           end)
  /\ (forall t, e_type element = Some t ->
                t <> "node"%string -> t <> "way"%string ->
                get_coordinates element = Ok (None, None))
  /\ (resolves element = true <->
      (e_type element = Some "node"%string
       /\ is_Some (e_lat element) /\ is_Some (e_lon element))
      \/ (e_type element = Some "way"%string
          /\ exists c, e_center element = Some c
                       /\ is_Some (c_lat c) /\ is_Some (c_lon c))).
Proof.
  split; [|split; [|split; [|split; [|apply resolves_spec]]]].
  - unfold get_coordinates, getitem_type.
    destruct (e_type element) as [t|]; [|tauto].
    split; [|discriminate].
    destruct (String.eqb t "node"); [discriminate|].
    destruct (String.eqb t "way"); [|discriminate].
    destruct (e_center element); discriminate.
  - intros H. unfold get_coordinates, getitem_type. now rewrite H.
  - intros H. unfold get_coordinates, getitem_type. rewrite H. simpl.
    now destruct (e_center element).
  - intros t H Hn Hw. unfold get_coordinates, getitem_type. rewrite H.
    apply String.eqb_neq in Hn, Hw. now rewrite Hn, Hw.
Qed.

Lemma resolves_typed (e : Element) : resolves e = true -> e_type e <> None.
Proof.
  unfold resolves, get_coordinates, getitem_type.
  destruct (e_type e); [discriminate|]. discriminate.
Qed.

Lemma filter_ok_inv (elements kept : list Element) :
  filter_missing_elevation elements = Ok kept ->
  kept = List.filter missing_and_resolvable elements.
Proof.
  unfold filter_missing_elevation. rewrite filter_loop_outcome.
  destruct (existsb _ elements); [discriminate|]. now intros [= <-].
Qed.

Lemma kept_resolve (elements : list Element) :
  Forall (fun e => resolves e = true)
    (List.filter missing_and_resolvable elements).
Proof.
  apply List.Forall_forall. intros e He. apply List.filter_In in He.
  destruct He as [_ He]. unfold missing_and_resolvable in He.
  now apply andb_true_iff in He.
Qed.

Lemma resolve_all_typed (l : list Element) :
  Forall (fun e => resolves e = true) l ->
  Forall (fun e => e_type e <> None) l.
Proof.
  intros H. apply List.Forall_forall. intros e He.
  apply resolves_typed. revert e He. now apply List.Forall_forall.
Qed.

(** X2: Filtering is idempotent: the list [filter_missing_elevation] returns
    is returned unchanged, and without error, by a second pass. *)
Theorem filter_missing_elevation_idempotent (elements kept : list Element) :
  filter_missing_elevation elements = Ok kept ->
  filter_missing_elevation kept = Ok kept.
Proof.
  intros H. apply filter_ok_inv in H. subst kept.
  unfold filter_missing_elevation.
  rewrite filter_nil_acc by apply resolve_all_typed, kept_resolve.
  simpl. f_equal. apply filter_filter_same.
Qed.

Lemma filter_filter_and (f g : Element -> bool) (l : list Element) :
  List.filter g (List.filter f l) = List.filter (fun e => f e && g e) l.
Proof.
  induction l as [|e l IH]; simpl; [reflexivity|].
  destruct (f e); simpl; [|exact IH]. destruct (g e); now rewrite IH.
Qed.

(** X3: [filter_data] on elements that carry their "type": the train stations
    are filtered as they are, the accommodations that pass the filter are
    split into alpine huts and the others, nothing lost and nothing
    duplicated, and a key absent from the raw snapshot gives empty
    lists. *)
Theorem filter_data_split (data : raw_data) :
  let stations := match raw_train_stations data with
                  | Some l => l
                  | None => []
                  end in
  let accommodations := match raw_accommodations data with
                        | Some l => l
                        | None => []
                        end in
  Forall (fun e => e_type e <> None) stations ->
  Forall (fun e => e_type e <> None) accommodations ->
  exists r,
    filter_data data = Ok r
    /\ train_stations r = List.filter missing_and_resolvable stations
    /\ alpine_huts r
       = List.filter (fun e => missing_and_resolvable e && is_alpine_hut e)
           accommodations
    /\ other_accommodations r
       = List.filter
           (fun e => missing_and_resolvable e && negb (is_alpine_hut e))
           accommodations
    /\ alpine_huts r ++ other_accommodations r
       ≡ₚ List.filter missing_and_resolvable accommodations.
Proof.
  intros stations accommodations Hs Ha. subst stations accommodations.
  unfold filter_data.
  assert (E1 : match raw_train_stations data with
               | Some l => filter_missing_elevation l
               | None => Ok []
               end
               = Ok (List.filter missing_and_resolvable
                       match raw_train_stations data with
                       | Some l => l
                       | None => []
                       end)).
  { destruct (raw_train_stations data) as [l|]; [|reflexivity].
    apply (filter_nil_acc l [] Hs). }
  rewrite E1.
  destruct (raw_accommodations data) as [l|].
  - unfold filter_missing_elevation. rewrite (filter_nil_acc l [] Ha).
    unfold prioritize_alpine_huts. rewrite prioritize_loop_filter.
    cbn [app]. rewrite !filter_filter_and.
    eexists. split; [reflexivity|]. cbn.
    repeat split; trivial.
    rewrite <- !filter_filter_and. apply filter_split_perm.
  - eexists. split; [reflexivity|]. cbn. repeat split; trivial.
Qed.

End FilterMore.

Lemma filter_missing_elevation_idempotent_witness :
  filter_missing_elevation
    [Samples.node_sample; Samples.tagged_sample; Samples.way_hut_sample]
  = Ok [Samples.node_sample; Samples.way_hut_sample]
  /\ filter_missing_elevation [Samples.node_sample; Samples.way_hut_sample]
     = Ok [Samples.node_sample; Samples.way_hut_sample].
Proof.
  split; [reflexivity|].
  apply (@filter_missing_elevation_idempotent PyInt
           [Samples.node_sample; Samples.tagged_sample;
            Samples.way_hut_sample]).
  reflexivity.
Defined.

Lemma filter_data_split_witness :
  let data := {| raw_train_stations :=
                   Some [Samples.node_sample; Samples.tagged_sample];
                 raw_accommodations :=
                   Some [Samples.way_hut_sample; Samples.no_location_sample;
                         Samples.high_sample] |} in
  exists r,
    filter_data data = Ok r
    /\ train_stations r = [Samples.node_sample]
    /\ alpine_huts r = [Samples.way_hut_sample]
    /\ other_accommodations r = [].
Proof.
  destruct (@filter_data_split PyInt
              {| raw_train_stations :=
                   Some [Samples.node_sample; Samples.tagged_sample];
                 raw_accommodations :=
                   Some [Samples.way_hut_sample; Samples.no_location_sample;
                         Samples.high_sample] |}
              ltac:(all_typed) ltac:(all_typed))
    as (r & Hr & Hs & Hh & Ho & _).
  exists r. split; [exact Hr|].
  rewrite Hs, Hh, Ho. repeat split.
Defined.

(** ** enrich.py *)

Section EnrichMore.
Context {PN : PyNumber}.

(** X5: [get_elevation] never raises and sends exactly one request, to the
    URL of the configured backend; it returns a value exactly when the
    backend answered with a non-empty result list whose first entry
    carries that elevation and, for OpenTopoData only, with the status
    "OK". *)
Theorem get_elevation_answer (self : ElevationEnricher) (lat lon : num)
    (w : enrich_world) :
  (exists elevation,
      get_elevation self lat lon w
      = (Ok elevation,
         {| backend := backend w;
            lookups := lookups w ++ [request_of self lat lon];
            sleeps := sleeps w |}))
  /\ (forall v,
        fst (get_elevation self lat lon w) = Ok (Some v) <->
        exists data rest,
          backend w (lookups w) (request_of self lat lon) = Some data
          /\ results data = Some (Some v :: rest)
          /\ (api_type self = "opentopo"%string ->
              status data = Some "OK"%string)).
Proof.
  split; [apply get_elevation_effect|].
  intros v. unfold get_elevation, bind, http, request_of.
  destruct (backend w (lookups w) _) as [data|]; simpl.
  2:{ split; [discriminate|]. intros (? & ? & ? & _). discriminate. }
  assert (Hf : forall r : option (list (option num)),
             first_elevation r = Some v <->
             exists rest, r = Some (Some v :: rest)).
  { intros [[|[x|] l]|]; simpl; split; try discriminate;
      try (intros [? ?]; congruence).
    intros [= ->]. eauto. }
  destruct (String.eqb_spec (api_type self) "opentopo") as [Ha|Ha].
  - destruct (status data) as [st|] eqn:Est; simpl.
    + destruct (String.eqb_spec st "OK") as [->|Hst]; simpl.
      * split.
        -- intros [= H]. apply Hf in H as [rest H]. exists data, rest. auto.
        -- intros (d & rest & [= <-] & Hr & _). f_equal. apply Hf. eauto.
      * split; [discriminate|].
        intros (d & rest & [= <-] & _ & Hs). specialize (Hs Ha). congruence.
    + split; [discriminate|].
      intros (d & rest & [= <-] & _ & Hs). specialize (Hs Ha). congruence.
  - simpl. split.
    + intros [= H]. apply Hf in H as [rest H]. exists data, rest.
      repeat split; auto. intros; contradiction.
    + intros (d & rest & [= <-] & Hr & _). f_equal. apply Hf. eauto.
Qed.

(** The three ways [enrich_element] can end. *)
Lemma enrich_element_cases (self : ElevationEnricher) (e : Element)
    (w : enrich_world) :
  (e_type e = None
   /\ enrich_element self e w = (Raise (KeyError "type"), w))
  \/ (e_type e <> None /\ resolves e = false
      /\ enrich_element self e w = (Ok None, w))
  \/ (exists lat lon elevation,
        get_coordinates e = Ok (Some lat, Some lon)
        /\ fst (get_elevation self lat lon w) = Ok elevation
        /\ enrich_element self e w
           = (Ok (Some match elevation with
                       | Some v => set_elevation e v
                       | None => e
                       end),
              {| backend := backend w;
                 lookups := lookups w ++ [request_of self lat lon];
                 sleeps := sleeps w ++ [rate_limit self] |})).
Proof.
  destruct (e_type e) as [t|] eqn:Et.
  2:{ left. split; [reflexivity|].
      unfold enrich_element, getitem_type. now rewrite Et. }
  right. destruct (resolves e) eqn:Hr.
  - right. destruct (resolves_true e Hr) as (lat & lon & Hc).
    destruct (enrich_element_resolved self e lat lon w Hc)
      as (elevation & Hg & He).
    exists lat, lon, elevation. rewrite Hg. auto.
  - left. assert (Hty : e_type e <> None) by congruence.
    destruct (resolves_false e Hty Hr) as (lat & lon & Hc & Hn).
    repeat split; [discriminate|].
    eapply enrich_element_unresolved; eauto.
Qed.

Lemma enrich_element_some (self : ElevationEnricher) (e e' : Element)
    (w w' : enrich_world) :
  enrich_element self e w = (Ok (Some e'), w') ->
  resolves e = true /\ enriched_from e e' /\ backend w' = backend w.
Proof.
  intros H.
  destruct (enrich_element_cases self e w)
    as [[_ Hc]|[(_ & _ & Hc)|(lat & lon & el & Hc & _ & He)]];
    rewrite H in *; try discriminate.
  injection He as -> ->. split.
  { unfold resolves. now rewrite Hc. }
  split; [|reflexivity].
  destruct el; [right; eauto|left; reflexivity].
Qed.

Lemma set_elevation_other_tags (e : Element) (v : num) (k : string) :
  k <> "ele"%string -> k <> "ele:source"%string ->
  tags_of (set_elevation e v) !! k = tags_of e !! k.
Proof.
  intros H1 H2. unfold tags_of, set_elevation. simpl.
  rewrite !lookup_insert_ne by congruence. reflexivity.
Qed.

(** X6: Whatever [enrich_element] returns keeps the type, the id, the
    location and the centre of its input, and every tag other than "ele"
    and "ele:source": enrichment only adds. *)
Theorem enrich_element_preserves (self : ElevationEnricher)
    (element element' : Element) (w w' : enrich_world) :
  enrich_element self element w = (Ok (Some element'), w') ->
  e_type element' = e_type element
  /\ e_id element' = e_id element
  /\ e_lat element' = e_lat element
  /\ e_lon element' = e_lon element
  /\ e_center element' = e_center element
  /\ (forall k, k <> "ele"%string -> k <> "ele:source"%string ->
            tags_of element' !! k = tags_of element !! k)
  /\ (forall k, is_Some (tags_of element !! k) ->
            is_Some (tags_of element' !! k)).
Proof.
  intros H. apply enrich_element_some in H as (_ & [-> | [v ->]] & _).
  { repeat split; auto. }
  repeat split; try reflexivity.
  - intros k. apply set_elevation_other_tags.
  - intros k Hk. unfold tags_of at 1, set_elevation. simpl.
    fold (tags_of element).
    destruct (decide ("ele:source"%string = k)) as [<-|N1].
    { rewrite lookup_insert_eq. eauto. }
    rewrite lookup_insert_ne by exact N1.
    destruct (decide ("ele"%string = k)) as [<-|N2].
    { rewrite lookup_insert_eq. eauto. }
    now rewrite lookup_insert_ne by exact N2.
Qed.

Lemma set_elevation_coordinates (e : Element) (v : num) :
  get_coordinates (set_elevation e v) = get_coordinates e.
Proof. reflexivity. Qed.

Lemma enriched_from_resolves (e e' : Element) :
  enriched_from e e' -> resolves e = true -> resolves e' = true.
Proof. intros [-> | [v ->]] H; exact H. Qed.

Lemma reached_incl (max_count : option Z) (count : Z) (l : list Element) :
  forall e, In e (reached max_count count l) -> In e l.
Proof.
  intros e. unfold reached. destruct max_count as [m|]; [|auto].
  destruct (m =? 0); [auto|]. intros H.
  rewrite <- (take_drop (Z.to_nat (m - count)) l) at 1.
  apply in_or_app. now left.
Qed.

Lemma request_for_resolved (self : ElevationEnricher) (e : Element)
    (lat lon : num) :
  get_coordinates e = Ok (Some lat, Some lon) ->
  request_for self e = Some (request_of self lat lon).
Proof. unfold request_for. now intros ->. Qed.

(** The loop of [enrich_elements] with its exact effects. *)
Lemma enrich_elements_loop_effects (self : ElevationEnricher)
    (max_count : option Z) (elements : list Element) :
  Forall (fun e => e_type e <> None) elements ->
  forall (enriched : list Element) (count : Z) (w : enrich_world),
  exists out w',
    enrich_elements_loop self max_count elements enriched count w
    = (Ok (enriched ++ out), w')
    /\ Forall2 enriched_from
         (reached max_count count (List.filter resolves elements)) out
    /\ lookups w'
       = lookups w
         ++ omap (request_for self)
              (reached max_count count (List.filter resolves elements))
    /\ sleeps w' = sleeps w ++ List.repeat (rate_limit self) (length out)
    /\ backend w' = backend w.
Proof.
  induction 1 as [|e rest Hty _ IH]; intros enriched count w.
  - exists [], w. simpl. rewrite !app_nil_r, reached_nil. simpl.
    rewrite !app_nil_r. repeat split; auto; constructor.
  - simpl. destruct (limit_reached max_count count) eqn:Hl.
    { exists [], w. rewrite app_nil_r, (reached_stop _ _ _ Hl). simpl.
      rewrite !app_nil_r. repeat split; auto; constructor. }
    destruct (resolves e) eqn:Hr.
    + destruct (resolves_true e Hr) as (lat & lon & Hc).
      destruct (enrich_element_resolved self e lat lon w Hc)
        as (elevation & _ & He).
      unfold bind. rewrite He.
      set (e' := match elevation with
                 | Some v => set_elevation e v
                 | None => e
                 end).
      assert (Hfrom : enriched_from e e').
      { subst e'. destruct elevation; [right; eauto|left; reflexivity]. }
      assert (Ht : dict_truthy e' = true).
      { apply typed_truthy. subst e'. now destruct elevation. }
      rewrite Ht.
      edestruct (IH (enriched ++ [e']) (count + 1))
        as (out & w' & Hrun & Hf & Hlk & Hsl & Hb).
      exists (e' :: out), w'. rewrite Hrun, <- app_assoc.
      split; [reflexivity|].
      rewrite (reached_cons _ _ _ _ Hl).
      split; [now constructor|].
      cbn [lookups sleeps backend] in Hlk, Hsl, Hb.
      rewrite Hlk, Hsl, <- !app_assoc. cbn [omap list_omap].
      rewrite (request_for_resolved self e lat lon Hc). simpl. auto.
    + destruct (resolves_false e Hty Hr) as (lat & lon & Hc & Hn).
      unfold bind. rewrite (enrich_element_unresolved self e lat lon w Hc Hn).
      apply IH.
Qed.

(** X7: The requests and the sleeps of [enrich_elements], on elements that
    carry their "type": the requests sent are those of the resolvable
    elements the run reaches, in input order, one per output, and the run
    sleeps as many times as it sends requests, [rate_limit] seconds each
    time; the backend is otherwise left alone. *)
Theorem enrich_elements_effects (self : ElevationEnricher)
    (elements : list Element) (max_count : option Z) (w : enrich_world) :
  Forall (fun e => e_type e <> None) elements ->
  exists out w',
    enrich_elements self elements max_count w = (Ok out, w')
    /\ lookups w'
       = lookups w
         ++ omap (request_for self)
              (reached max_count 0 (List.filter resolves elements))
    /\ length (omap (request_for self)
                 (reached max_count 0 (List.filter resolves elements)))
       = length out
    /\ sleeps w' = sleeps w ++ List.repeat (rate_limit self) (length out)
    /\ backend w' = backend w.
Proof.
  intros Hty.
  destruct (enrich_elements_loop_effects self max_count elements Hty [] 0 w)
    as (out & w' & Hrun & Hf & Hlk & Hsl & Hb).
  exists out, w'. unfold enrich_elements. rewrite Hrun.
  split; [reflexivity|]. split; [exact Hlk|].
  split; [|auto].
  apply Forall2_length in Hf. rewrite <- Hf.
  assert (Hall : Forall (fun e => resolves e = true)
                   (reached max_count 0 (List.filter resolves elements))).
  { apply List.Forall_forall. intros e He. apply reached_incl in He.
    apply List.filter_In in He. apply He. }
  clear -Hall.
  induction Hall as [|e l He _ IH]; [reflexivity|].
  cbn [omap list_omap].
  destruct (resolves_true e He) as (lat & lon & Hc).
  rewrite (request_for_resolved self e lat lon Hc). simpl. now rewrite IH.
Qed.

(** X8: Filter, then enrich: on the list [filter_missing_elevation] returns,
    [enrich_elements] without a limit never raises and gives exactly one
    output per element, in order, each one the element as it was or with
    its elevation set, for one lookup each. *)
Theorem enrich_after_filter (self : ElevationEnricher)
    (elements kept : list Element) (w : enrich_world) :
  filter_missing_elevation elements = Ok kept ->
  exists out w',
    enrich_elements self kept None w = (Ok out, w')
    /\ Forall2 enriched_from kept out
    /\ length out = length kept
    /\ length (lookups w') = (length (lookups w) + length kept)%nat.
Proof.
  intros H. apply filter_ok_inv in H. subst kept.
  pose proof (kept_resolve elements) as Hres.
  destruct (enrich_elements_loop_spec self None _
              (resolve_all_typed _ Hres) [] 0 w)
    as (out & w' & Hrun & Hf & Hlk & _).
  exists out, w'. unfold enrich_elements. rewrite Hrun.
  unfold reached in Hf. rewrite (filter_all_true _ _ Hres) in Hf.
  pose proof (Forall2_length _ _ _ Hf) as Hlen.
  repeat split; auto. lia.
Qed.

(** X9: Enrich, then filter again: on elements that carry their "type",
    every output of [enrich_elements] has a coordinate that resolves, and
    a second filter pass over the output never raises and keeps exactly
    the outputs that have no "ele" tag. *)
Theorem filter_after_enrich (self : ElevationEnricher)
    (elements : list Element) (max_count : option Z) (w : enrich_world) :
  Forall (fun e => e_type e <> None) elements ->
  exists out w',
    enrich_elements self elements max_count w = (Ok out, w')
    /\ Forall (fun e => resolves e = true) out
    /\ filter_missing_elevation out
       = Ok (List.filter (fun e => negb (has_elevation e)) out).
Proof.
  intros Hty.
  destruct (enrich_elements_loop_spec self max_count elements Hty [] 0 w)
    as (out & w' & Hrun & Hf & _).
  exists out, w'. unfold enrich_elements. rewrite Hrun.
  assert (Hres : Forall (fun e => resolves e = true) out).
  { assert (Hall : Forall (fun e => resolves e = true)
                     (reached max_count 0 (List.filter resolves elements))).
    { apply List.Forall_forall. intros e He. apply reached_incl in He.
      apply List.filter_In in He. apply He. }
    clear -Hf Hall. induction Hf as [|e e' l l' Hee _ IH]; constructor.
    - inversion Hall; subst. eapply enriched_from_resolves; eauto.
    - apply IH. now inversion Hall. }
  split; [reflexivity|]. split; [exact Hres|].
  unfold filter_missing_elevation.
  rewrite filter_nil_acc by (apply resolve_all_typed, Hres).
  simpl. f_equal. clear -Hres.
  induction Hres as [|e l He _ IH]; simpl; [reflexivity|].
  unfold missing_and_resolvable at 1. rewrite He, andb_true_r.
  now rewrite IH.
Qed.

(** X10: Enrich, then validate: for an element whose coordinate resolves, the
    element [enrich_element] returns is classified by the looked-up
    value alone: a value [v] is recorded and is valid exactly when it is
    neither below the minimum nor above the maximum; a failed lookup on
    an element without [elevation_fetched] gives "No elevation data". *)
Theorem validate_after_enrich (self : ElevationEnricher)
    (validator : ElevationValidator) (element : Element) (lat lon : num)
    (w : enrich_world) :
  get_coordinates element = Ok (Some lat, Some lon) ->
  exists answer element' w',
    fst (get_elevation self lat lon w) = Ok answer
    /\ enrich_element self element w = (Ok (Some element'), w')
    /\ (forall v, answer = Some v ->
          elevation (validate_element validator element') = Some v
          /\ valid (validate_element validator element')
             = negb (num_lt v (min_elevation validator))
               && negb (num_gt v (max_elevation validator)))
    /\ (answer = None -> e_elevation_fetched element = None ->
        valid (validate_element validator element') = false
        /\ errors (validate_element validator element')
           = ["No elevation data"%string]).
Proof.
  intros Hc.
  destruct (enrich_element_resolved self element lat lon w Hc)
    as (el & Hg & He).
  exists el. eexists. eexists. rewrite Hg.
  split; [reflexivity|]. split; [exact He|].
  split.
  - intros v ->. unfold validate_element. simpl.
    destruct (num_lt v (min_elevation validator)); simpl; [auto|].
    destruct (num_gt v (max_elevation validator)); auto.
  - intros -> Hn. unfold validate_element. rewrite Hn. auto.
Qed.

End EnrichMore.

Lemma enrich_element_preserves_witness :
  exists element' w',
    enrich_element Samples.enricher Samples.node_sample Samples.flat_world
    = (Ok (Some element'), w')
    /\ e_id element' = Some 1
    /\ tags_of element' !! "railway"%string = Some "station"%string.
Proof.
  destruct (enrich_element Samples.enricher Samples.node_sample
              Samples.flat_world) as [r w'] eqn:E.
  assert (Hr : r = Ok (Some (set_elevation Samples.node_sample 850)))
    by (apply (f_equal fst) in E; exact (eq_sym E)).
  subst r. eexists. exists w'. split; [reflexivity|].
  destruct (@enrich_element_preserves PyInt _ _ _ _ _ E)
    as (_ & Hid & _ & _ & _ & Ht & _).
  split; [rewrite Hid; reflexivity|].
  rewrite Ht by discriminate. reflexivity.
Defined.

Lemma enrich_elements_effects_witness :
  let elements := [Samples.node_sample; Samples.no_location_sample;
                   Samples.way_hut_sample] in
  Forall (fun e => e_type e <> None) elements
  /\ exists out w',
      enrich_elements Samples.enricher elements None Samples.flat_world
      = (Ok out, w')
      /\ lookups w'
         = [request_of Samples.enricher 45 25;
            request_of Samples.enricher 46 24]
      /\ sleeps w' = [1; 1].
Proof.
  assert (Hty : Forall (fun e : @Element PyInt => e_type e <> None)
                  [Samples.node_sample; Samples.no_location_sample;
                   Samples.way_hut_sample]) by all_typed.
  split; [exact Hty|].
  destruct (@enrich_elements_effects PyInt Samples.enricher _ None
              Samples.flat_world Hty)
    as (out & w' & Hrun & Hlk & Hlen & Hsl & _).
  exists out, w'. split; [exact Hrun|].
  split; [rewrite Hlk; reflexivity|].
  rewrite Hsl, <- Hlen. reflexivity.
Defined.

Lemma enrich_after_filter_witness :
  let elements := [Samples.node_sample; Samples.tagged_sample;
                   Samples.no_location_sample; Samples.way_hut_sample] in
  filter_missing_elevation elements
  = Ok [Samples.node_sample; Samples.way_hut_sample]
  /\ exists out w',
      enrich_elements Samples.enricher
        [Samples.node_sample; Samples.way_hut_sample] None
        Samples.offline_world = (Ok out, w')
      /\ length out = 2%nat.
Proof.
  split; [reflexivity|].
  destruct (@enrich_after_filter PyInt Samples.enricher
              [Samples.node_sample; Samples.tagged_sample;
               Samples.no_location_sample; Samples.way_hut_sample]
              [Samples.node_sample; Samples.way_hut_sample]
              Samples.offline_world eq_refl)
    as (out & w' & Hrun & _ & Hlen & _).
  exists out, w'. split; [exact Hrun|exact Hlen].
Defined.

Lemma filter_after_enrich_witness :
  let elements := [Samples.node_sample; Samples.way_hut_sample] in
  Forall (fun e => e_type e <> None) elements
  /\ exists out w',
      enrich_elements Samples.enricher elements None Samples.flat_world
      = (Ok out, w')
      /\ filter_missing_elevation out
         = Ok (List.filter (fun e => negb (has_elevation e)) out).
Proof.
  assert (Hty : Forall (fun e : @Element PyInt => e_type e <> None)
                  [Samples.node_sample; Samples.way_hut_sample])
    by all_typed.
  split; [exact Hty|].
  destruct (@filter_after_enrich PyInt Samples.enricher _ None
              Samples.flat_world Hty) as (out & w' & Hrun & _ & Hf).
  exists out, w'. split; [exact Hrun|exact Hf].
Defined.

Lemma validate_after_enrich_witness :
  get_coordinates Samples.node_sample = Ok (Some 45, Some 25)
  /\ exists element' w',
      enrich_element Samples.enricher Samples.node_sample Samples.flat_world
      = (Ok (Some element'), w')
      /\ valid (validate_element (@ElevationValidator_default PyInt)
                  element') = true.
Proof.
  split; [reflexivity|].
  destruct (@validate_after_enrich PyInt Samples.enricher
              (@ElevationValidator_default PyInt) Samples.node_sample
              45 25 Samples.flat_world eq_refl)
    as (answer & element' & w' & Hg & He & Hv & _).
  exists element', w'. split; [exact He|].
  vm_compute in Hg. injection Hg as <-.
  destruct (Hv 850 eq_refl) as [_ ->]. reflexivity.
Defined.

(** ** validate.py *)

Section ValidateMore.
Context {PN : PyNumber}.

Lemma validate_elements_count (self : ElevationValidator)
    (elements : list Element) :
  (length (res_valid (validate_elements self elements))
   + length (res_invalid (validate_elements self elements)))%nat
  = length elements.
Proof.
  unfold validate_elements. rewrite validate_elements_loop_filter.
  cbn [res_valid res_invalid app]. rewrite length_map.
  apply (filter_split_length (is_valid self)).
Qed.

(** X12: [validate_elements] splits its input in two, in input order: the
    elements [validate_element] finds valid and an entry for each of the
    others.  Nothing is lost or duplicated, the two counts add up to the
    length of the input, and each entry holds the validation of its own
    element, which is invalid, gives exactly one reason and repeats the
    element's id. *)
Theorem validate_elements_partition (self : ElevationValidator)
    (elements : list Element) :
  let r := validate_elements self elements in
  res_valid r = List.filter (is_valid self) elements
  /\ List.map inv_element (res_invalid r)
     = List.filter (fun e => negb (is_valid self e)) elements
  /\ res_valid r ++ List.map inv_element (res_invalid r) ≡ₚ elements
  /\ (length (res_valid r) + length (res_invalid r))%nat = length elements
  /\ Forall (fun i =>
               inv_validation i = validate_element self (inv_element i)
               /\ valid (inv_validation i) = false
               /\ length (errors (inv_validation i)) = 1%nat
               /\ element_id (inv_validation i) = e_id (inv_element i))
       (res_invalid r).
Proof.
  intros r. subst r.
  assert (Hv : res_valid (validate_elements self elements)
               = List.filter (is_valid self) elements).
  { unfold validate_elements. now rewrite validate_elements_loop_filter. }
  assert (Hi : List.map inv_element
                 (res_invalid (validate_elements self elements))
               = List.filter (fun e => negb (is_valid self e)) elements).
  { unfold validate_elements. rewrite validate_elements_loop_filter.
    cbn [res_invalid app]. rewrite List.map_map. cbn [inv_element].
    apply List.map_id. }
  split; [exact Hv|]. split; [exact Hi|].
  split; [rewrite Hv, Hi; apply filter_split_perm|].
  split; [apply (validate_elements_count self elements)|].
  unfold validate_elements. rewrite validate_elements_loop_filter.
  cbn [res_valid res_invalid app].
  apply List.Forall_forall. intros i Hin.
  apply List.in_map_iff in Hin as (e & <- & He).
  apply List.filter_In in He as [_ He]. apply negb_true_iff in He.
  cbn [inv_element inv_validation]. split; [reflexivity|].
  split; [exact He|]. unfold is_valid in He. revert He.
  unfold validate_element.
  destruct (e_elevation_fetched e) as [v|]; [|auto].
  destruct (num_lt v (min_elevation self)); [auto|].
  destruct (num_gt v (max_elevation self)); [auto|discriminate].
Qed.

(** X13: The valid list holds exactly the input elements that carry an
    [elevation_fetched] neither below the minimum nor above the maximum:
    an element without elevation, or out of range, is never passed on. *)
Theorem validate_elements_valid_iff (self : ElevationValidator)
    (elements : list Element) (e : Element) :
  In e (res_valid (validate_elements self elements)) <->
  In e elements
  /\ exists v, e_elevation_fetched e = Some v
               /\ num_lt v (min_elevation self) = false
               /\ num_gt v (max_elevation self) = false.
Proof.
  unfold validate_elements. rewrite validate_elements_loop_filter.
  cbn [res_valid app]. rewrite List.filter_In.
  assert (H : is_valid self e = true <->
              exists v, e_elevation_fetched e = Some v
                        /\ num_lt v (min_elevation self) = false
                        /\ num_gt v (max_elevation self) = false).
  { unfold is_valid, validate_element.
    destruct (e_elevation_fetched e) as [v|].
    - destruct (num_lt v (min_elevation self)) eqn:E1.
      { split; [discriminate|]. intros (v' & [= <-] & ? & _). congruence. }
      destruct (num_gt v (max_elevation self)) eqn:E2.
      { split; [discriminate|]. intros (v' & [= <-] & _ & ?). congruence. }
      split; eauto.
    - split; [discriminate|]. intros (v' & ? & _). discriminate. }
  tauto.
Qed.

(** X14: [validate_all] has an entry exactly for the categories whose list is
    not empty, and the entry of a category is the validation of its own
    list, so that its two counts add up to the length of that list. *)
Theorem validate_all_entries (self : ElevationValidator)
    (data : gmap string (list Element)) (category : string) :
  (validate_all self data !! category = None <->
   data !! category = None \/ data !! category = Some [])
  /\ (forall r, validate_all self data !! category = Some r <->
        exists elements,
          data !! category = Some elements /\ elements <> []
          /\ r = validate_elements self elements)
  /\ (forall r elements,
        validate_all self data !! category = Some r ->
        data !! category = Some elements ->
        (length (res_valid r) + length (res_invalid r))%nat
        = length elements).
Proof.
  unfold validate_all. rewrite lookup_omap.
  destruct (data !! category) as [[|e l]|]; simpl.
  - split; [split; auto|]. split.
    + intros r. split; [discriminate|]. intros (? & [= <-] & ? & _).
      congruence.
    + discriminate.
  - split.
    { split; [discriminate|]. intros [?|?]; discriminate. }
    split.
    + intros r. split.
      * intros [= <-]. exists (e :: l). auto.
      * intros (? & [= <-] & _ & ->). reflexivity.
    + intros r elements [= <-] [= <-].
      apply (validate_elements_count self (e :: l)).
  - split; [split; auto|]. split.
    + intros r. split; [discriminate|]. intros (? & ? & _). discriminate.
    + discriminate.
Qed.

End ValidateMore.

(** ** upload.py *)

Section UploadMore.
Context {PN : PyNumber}.

Lemma upload_element_dry (self : OSMUploader) (e : Element) (c : string)
    (w : upload_world) :
  dry_run self = true ->
  upload_element self e c w
  = ((uploadable e, dry_run_message e), w).
Proof.
  intros Hd. unfold upload_element, uploadable, dry_run_message.
  destruct (truthy_int (e_id e)) eqn:Hi; simpl; [|reflexivity].
  destruct (truthy_str (e_type e)) eqn:Ht; simpl; [|reflexivity].
  unfold dict_has at 1 3 5.
  destruct (tags_of e !! "ele"%string) as [v|] eqn:He; simpl;
    [|reflexivity].
  destruct (dict_has "ele:source" (tags_of e)); simpl; [|reflexivity].
  destruct (e_id e); [|discriminate]. destruct (e_type e); [|discriminate].
  now rewrite Hd.
Qed.

Lemma upload_loop_dry (self : OSMUploader) (elements : list Element) :
  dry_run self = true ->
  forall (stats : upload_stats) (w : upload_world),
    upload_elements_loop self elements stats w
    = ({| total := total stats;
          successful :=
            successful stats
            + Z.of_nat (length (List.filter uploadable elements));
          failed :=
            failed stats
            + Z.of_nat (length (List.filter
                                  (fun e => negb (uploadable e)) elements));
          upload_errors :=
            upload_errors stats
            ++ List.map
                 (fun e => {| err_element_id := e_id e;
                              err_error := dry_run_message e |})
                 (List.filter (fun e => negb (uploadable e)) elements) |},
       w).
Proof.
  intros Hd. induction elements as [|e rest IH]; intros stats w; simpl.
  - rewrite !Z.add_0_r, app_nil_r. now destruct stats.
  - rewrite (upload_element_dry self e _ w Hd). rewrite IH.
    destruct (uploadable e);
      cbn [negb List.map length total successful failed upload_errors
           fst snd];
      rewrite ?Nat2Z.inj_succ, <- ?app_assoc; f_equal; f_equal;
      try reflexivity; lia.
Qed.

Lemma upload_elements_dry_world (self : OSMUploader)
    (elements : list Element) (w : upload_world) :
  dry_run self = true -> snd (upload_elements self elements w) = w.
Proof.
  intros Hd. unfold upload_elements.
  now rewrite (upload_loop_dry self elements Hd).
Qed.

Lemma upload_all_dry_world (self : OSMUploader)
    (data : list (string * list Element)) (w : upload_world) :
  dry_run self = true -> snd (upload_all self data w) = w.
Proof.
  intros Hd. revert w.
  induction data as [|[category elements] rest IH]; intros w; simpl;
    [reflexivity|].
  destruct elements as [|e l]; [apply IH|].
  pose proof (upload_elements_dry_world self (e :: l) w Hd) as H2.
  destruct (upload_elements self (e :: l) w) as [stats w1].
  simpl in H2. subst w1. specialize (IH w).
  destruct (upload_all self rest w) as [all_stats w2]. exact IH.
Qed.

(** X15: A dry run never contacts the store: [upload_element], whatever the
    element, [upload_elements] and [upload_all] leave the world as it
    was, no call made. *)
Theorem dry_run_never_contacts_store (self : OSMUploader) :
  dry_run self = true ->
  (forall e c w, snd (upload_element self e c w) = w)
  /\ (forall elements w, snd (upload_elements self elements w) = w)
  /\ (forall data w, snd (upload_all self data w) = w).
Proof.
  intros Hd. split; [|split].
  - intros e c w. now rewrite (upload_element_dry self e c w Hd).
  - intros elements w. now apply upload_elements_dry_world.
  - intros data w. now apply upload_all_dry_world.
Qed.

(** X16: In a dry run [upload_elements] counts as successful exactly the
    elements that pass the four tests (a non-zero id, a non-empty type,
    the "ele" and the "ele:source" tag), and reports each of the others
    once, in input order, under its id. *)
Theorem upload_elements_dry_run (self : OSMUploader)
    (elements : list Element) (w : upload_world) :
  dry_run self = true ->
  let stats := fst (upload_elements self elements w) in
  successful stats = Z.of_nat (length (List.filter uploadable elements))
  /\ failed stats
     = Z.of_nat (length (List.filter (fun e => negb (uploadable e))
                           elements))
  /\ upload_errors stats
     = List.map (fun e => {| err_element_id := e_id e;
                             err_error := dry_run_message e |})
         (List.filter (fun e => negb (uploadable e)) elements)
  /\ (Forall (fun e => uploadable e = true) elements ->
      successful stats = total stats /\ failed stats = 0
      /\ upload_errors stats = []).
Proof.
  intros Hd stats. subst stats. unfold upload_elements.
  rewrite (upload_loop_dry self elements Hd).
  cbn [fst total successful failed upload_errors app].
  split; [reflexivity|]. split; [reflexivity|].
  split; [reflexivity|].
  intros Hall.
  assert (E1 : List.filter uploadable elements = elements).
  { clear -Hall. induction Hall as [|e l He _ IH]; simpl; [reflexivity|].
    now rewrite He, IH. }
  assert (E2 : List.filter (fun e => negb (uploadable e)) elements = []).
  { clear -Hall. induction Hall as [|e l He _ IH]; simpl; [reflexivity|].
    now rewrite He. }
  rewrite E1, E2. auto.
Qed.

(** X17: The constructor of the uploader: a dry run is always built, with no
    API client, whatever the credentials; a live uploader is built, with
    a client holding the credentials, exactly when the username and the
    password are both non-empty, and [ValueError] is raised otherwise. *)
Theorem OSMUploader_init_outcome (username password : option string) :
  OSMUploader_init username password true
  = Ok {| dry_run := true; username := username; password := password;
          api := None |}
  /\ (truthy_str username && truthy_str password = true ->
      exists u p,
        username = Some u /\ password = Some p
        /\ OSMUploader_init username password false
           = Ok {| dry_run := false; username := username;
                   password := password;
                   api := Some {| api_username := u;
                                  api_password := p |} |})
  /\ (truthy_str username && truthy_str password = false ->
      OSMUploader_init username password false
      = Raise (ValueError
                 "Username and password required for actual upload")).
Proof.
  split; [reflexivity|]. split.
  - intros H. apply andb_true_iff in H as [Hu Hp].
    destruct username as [u|], password as [p|]; try discriminate.
    exists u, p. unfold OSMUploader_init. now rewrite Hu, Hp.
  - intros H. apply andb_false_iff in H.
    now apply OSMUploader_init_live_without_credentials.
Qed.

(** X18: [upload_all] reports on the categories whose list is not empty, in
    the order of the snapshot, and skips the others; the [total] of each
    report is the length of the category's list and the sum of its
    [successful] and [failed]. *)
Theorem upload_all_categories (self : OSMUploader)
    (data : list (string * list Element)) (w : upload_world) :
  let nonempty := fun kv : string * list Element =>
                    match snd kv with
                    | [] => false
                    | _ => true
                    end in
  Forall2 (fun kv st =>
             fst st = fst kv
             /\ total (snd st) = Z.of_nat (length (snd kv))
             /\ total (snd st) = successful (snd st) + failed (snd st))
    (List.filter nonempty data) (fst (upload_all self data w)).
Proof.
  intros nonempty. subst nonempty. revert w.
  induction data as [|[category elements] rest IH]; intros w; simpl;
    [constructor|].
  destruct elements as [|e l]; simpl; [apply IH|].
  destruct (upload_elements self (e :: l) w) as [stats w1] eqn:E.
  specialize (IH w1). destruct (upload_all self rest w1) as [all w2].
  simpl in *. constructor; [|exact IH]. simpl.
  unfold upload_elements in E. rewrite upload_loop_trace in E.
  destruct (upload_trace self (e :: l) w) as [trace w'] eqn:Et.
  injection E as <- <-. cbn [total successful failed].
  pose proof (upload_trace_elements self (e :: l) w) as Hm.
  rewrite Et in Hm. simpl in Hm.
  pose proof (filter_split_length succeeded trace) as Hl.
  assert (length trace = S (length l))
    by (rewrite <- (length_map fst), Hm; reflexivity).
  repeat split; simpl; lia.
Qed.

(** *** The live path *)

Section Live.
Variables (self : OSMUploader) (element : Element) (comment : string)
          (w : upload_world) (client : OsmApi) (id : Z)
          (ty ele_value : string).
Hypothesis live : dry_run self = false.
Hypothesis has_id : e_id element = Some id.
Hypothesis id_nonzero : id <> 0.
Hypothesis has_type : e_type element = Some ty.
Hypothesis has_ele : tags_of element !! "ele"%string = Some ele_value.
Hypothesis has_source : is_Some (tags_of element !! "ele:source"%string).

Lemma upload_element_live_unfold :
  ty <> ""%string ->
  upload_element self element comment w
  = if String.eqb ty "node" || String.eqb ty "way"
    then match api self with
         | Some _ =>
             match upload_live (String.eqb ty "node") id ele_value comment w
             with
             | (inr r, w') => (r, w')
             | (inl err, w') =>
                 ((false, "Error uploading: " ++ err)%string, w')
             end
         | None =>
             ((false,
               "Error uploading: " ++ no_api_message (String.eqb ty "node"))
                %string, w)
         end
    else ((false, "Unsupported element type: " ++ ty)%string, w).
Proof.
  intros Hty. unfold upload_element.
  rewrite has_id, has_type. cbn [truthy_int truthy_str].
  apply Z.eqb_neq in id_nonzero. rewrite id_nonzero.
  apply String.eqb_neq in Hty. rewrite Hty. cbn [negb orb].
  rewrite (dict_has_true _ _ (ex_intro _ _ has_ele)),
    (dict_has_true _ _ has_source), has_ele, live.
  reflexivity.
Qed.

(** X19: In live mode an element that passes the four tests but is neither a
    node nor a way is refused with "Unsupported element type", before
    any call to the store. *)
Theorem upload_element_unsupported_type :
  ty <> ""%string -> ty <> "node"%string -> ty <> "way"%string ->
  upload_element self element comment w
  = ((false, "Unsupported element type: " ++ ty)%string, w).
Proof.
  intros H0 H1 H2. rewrite (upload_element_live_unfold H0).
  apply String.eqb_neq in H1, H2. now rewrite H1, H2.
Qed.

Hypothesis has_client : api self = Some client.
Hypothesis node_or_way : ty = "node"%string \/ ty = "way"%string.

Lemma node_or_way_supported :
  ty <> ""%string /\ String.eqb ty "node" || String.eqb ty "way" = true.
Proof. destruct node_or_way as [-> | ->]; split; auto; discriminate. Qed.

(** X20: When the server accepts the four calls, a live upload of a node or a
    way succeeds with exactly these calls, in this order: the fetch of
    the element by id, the opening of one changeset with the comment,
    the update, the closing.  The update sends the fetched element with
    "ele" set to the element's own tag and "ele:source" set to "SRTM",
    every other upstream tag kept. *)
Theorem upload_element_live_success (osm : osm_element) :
  let get := get_call ty id in
  let create := ChangesetCreate (changeset_tags comment) in
  let osm' := update_tags osm ele_value in
  let update := update_call ty osm' in
  srv_get (server w) (calls w) get = inr osm ->
  srv_do (server w) (calls w ++ [get]) create = None ->
  srv_do (server w) (calls w ++ [get; create]) update = None ->
  srv_do (server w) (calls w ++ [get; create; update]) ChangesetClose
  = None ->
  upload_element self element comment w
  = ((true, "Upload successful"%string),
     after_calls w [get; create; update; ChangesetClose])
  /\ (exists tag,
        osm_tag osm' = Some tag
        /\ tag !! "ele"%string = Some ele_value
        /\ tag !! "ele:source"%string = Some "SRTM"%string
        /\ forall k, k <> "ele"%string -> k <> "ele:source"%string ->
                     tag !! k = match osm_tag osm with
                                | Some upstream => upstream !! k
                                | None => None
                                end).
Proof.
  intros get create osm' update Hg Hc Hu Hcl.
  destruct node_or_way_supported as [Hne Hsup].
  split.
  - rewrite (upload_element_live_unfold Hne), Hsup, has_client.
    unfold upload_live, tbind, api_get, api_do. cbn [server calls].
    fold (get_call ty id). fold get. rewrite Hg.
    fold (changeset_tags comment). fold create. rewrite Hc.
    fold (update_call ty (update_tags osm ele_value)). fold osm' update.
    rewrite <- !app_assoc. cbn [app]. rewrite Hu, Hcl.
    reflexivity.
  - subst osm'. unfold update_tags. cbn [osm_tag]. eexists.
    split; [reflexivity|]. split.
    { rewrite lookup_insert_ne by discriminate. apply lookup_insert_eq. }
    split; [apply lookup_insert_eq|].
    intros k H1 H2. rewrite !lookup_insert_ne by congruence.
    destruct (osm_tag osm); [reflexivity|apply lookup_empty].
Qed.

(** X21: A live upload that fails part way reports the text of the exception
    and stops there.  A failed fetch opens no changeset; a refused
    changeset sends no update; and a failed update leaves the changeset
    it opened unclosed: [ChangesetClose] is not called. *)
Theorem upload_element_live_failure (err : string) :
  let get := get_call ty id in
  let create := ChangesetCreate (changeset_tags comment) in
  (srv_get (server w) (calls w) get = inl err ->
   upload_element self element comment w
   = ((false, "Error uploading: " ++ err)%string, after_calls w [get]))
  /\ (forall osm,
        srv_get (server w) (calls w) get = inr osm ->
        srv_do (server w) (calls w ++ [get]) create = Some err ->
        upload_element self element comment w
        = ((false, "Error uploading: " ++ err)%string,
           after_calls w [get; create]))
  /\ (forall osm,
        let update := update_call ty (update_tags osm ele_value) in
        srv_get (server w) (calls w) get = inr osm ->
        srv_do (server w) (calls w ++ [get]) create = None ->
        srv_do (server w) (calls w ++ [get; create]) update = Some err ->
        upload_element self element comment w
        = ((false, "Error uploading: " ++ err)%string,
           after_calls w [get; create; update]))
  /\ (forall osm,
        let update := update_call ty (update_tags osm ele_value) in
        srv_get (server w) (calls w) get = inr osm ->
        srv_do (server w) (calls w ++ [get]) create = None ->
        srv_do (server w) (calls w ++ [get; create]) update = None ->
        srv_do (server w) (calls w ++ [get; create; update]) ChangesetClose
        = Some err ->
        upload_element self element comment w
        = ((false, "Error uploading: " ++ err)%string,
           after_calls w [get; create; update; ChangesetClose])).
Proof.
  intros get create.
  destruct node_or_way_supported as [Hne Hsup].
  rewrite (upload_element_live_unfold Hne), Hsup, has_client.
  unfold upload_live, tbind, api_get, api_do. cbn [server calls].
  fold (get_call ty id). fold get.
  fold (changeset_tags comment). fold create.
  split; [intros ->; reflexivity|].
  split.
  { intros osm -> Hc. rewrite Hc. rewrite <- !app_assoc. reflexivity. }
  split.
  { intros osm; cbv zeta; intros -> Hc Hu. rewrite Hc.
    fold (update_call ty (update_tags osm ele_value)).
    rewrite <- !app_assoc. cbn [app]. rewrite Hu. reflexivity. }
  intros osm; cbv zeta; intros -> Hc Hu Hcl. rewrite Hc.
  fold (update_call ty (update_tags osm ele_value)).
  rewrite <- !app_assoc. cbn [app]. rewrite Hu, Hcl. reflexivity.
Qed.

End Live.

End UploadMore.

Lemma dry_run_never_contacts_store_witness :
  dry_run Samples.dry_uploader = true
  /\ snd (upload_elements Samples.dry_uploader
            [Samples.tagged_sample; Samples.node_sample]
            Samples.accepting_world)
     = Samples.accepting_world.
Proof.
  split; [reflexivity|].
  apply (@dry_run_never_contacts_store PyInt Samples.dry_uploader eq_refl).
Defined.

Lemma upload_elements_dry_run_witness :
  dry_run Samples.dry_uploader = true
  /\ successful (fst (upload_elements Samples.dry_uploader
                        [Samples.tagged_sample; Samples.node_sample;
                         Samples.zero_id_sample] Samples.accepting_world))
     = 1.
Proof.
  split; [reflexivity|].
  destruct (@upload_elements_dry_run PyInt Samples.dry_uploader
              [Samples.tagged_sample; Samples.node_sample;
               Samples.zero_id_sample] Samples.accepting_world eq_refl)
    as [-> _].
  reflexivity.
Defined.

Lemma OSMUploader_init_outcome_witness :
  truthy_str (Some "mapper"%string) && truthy_str None = false
  /\ OSMUploader_init (Some "mapper"%string) None false
     = Raise (ValueError "Username and password required for actual upload")
  /\ truthy_str (Some "mapper"%string) && truthy_str (Some "secret"%string)
     = true
  /\ exists u p,
      OSMUploader_init (Some "mapper"%string) (Some "secret"%string) false
      = Ok {| dry_run := false; username := Some "mapper"%string;
              password := Some "secret"%string;
              api := Some {| api_username := u; api_password := p |} |}.
Proof.
  split; [reflexivity|].
  split;
    [apply (proj2 (proj2 (OSMUploader_init_outcome
                            (Some "mapper"%string) None)));
     reflexivity|].
  split; [reflexivity|].
  destruct (proj1 (proj2 (OSMUploader_init_outcome
                            (Some "mapper"%string)
                            (Some "secret"%string))) eq_refl)
    as (u & p & _ & _ & H).
  exists u, p. exact H.
Defined.

Lemma upload_element_unsupported_type_witness :
  upload_element Samples.live_uploader MoreSamples.relation_sample
    "Add elevation data" Samples.accepting_world
  = ((false, "Unsupported element type: relation"%string),
     Samples.accepting_world).
Proof.
  apply (@upload_element_unsupported_type PyInt Samples.live_uploader
           MoreSamples.relation_sample "Add elevation data"
           Samples.accepting_world 8 "relation" "850");
    try reflexivity; try discriminate.
  eexists; reflexivity.
Defined.

Lemma upload_element_live_success_witness :
  upload_element Samples.live_uploader Samples.tagged_sample
    "Add elevation data" Samples.accepting_world
  = ((true, "Upload successful"%string),
     after_calls Samples.accepting_world
       [NodeGet 3; ChangesetCreate (changeset_tags "Add elevation data");
        NodeUpdate (update_tags MoreSamples.upstream_sample "850");
        ChangesetClose]).
Proof.
  apply (@upload_element_live_success PyInt Samples.live_uploader
           Samples.tagged_sample "Add elevation data"
           Samples.accepting_world
           {| api_username := "mapper"; api_password := "secret" |}
           3 "node" "850");
    try reflexivity; try discriminate.
  - eexists; reflexivity.
  - left; reflexivity.
Defined.

Lemma upload_element_live_failure_witness :
  upload_element Samples.live_uploader Samples.tagged_sample
    "Add elevation data" MoreSamples.update_refusing_world
  = ((false, "Error uploading: 409 Conflict"%string),
     after_calls MoreSamples.update_refusing_world
       [NodeGet 3; ChangesetCreate (changeset_tags "Add elevation data");
        NodeUpdate (update_tags MoreSamples.upstream_sample "850")]).
Proof.
  assert (Hs : is_Some (tags_of Samples.tagged_sample
                          !! "ele:source"%string))
    by (eexists; reflexivity).
  destruct (@upload_element_live_failure PyInt Samples.live_uploader
              Samples.tagged_sample "Add elevation data"
              MoreSamples.update_refusing_world
              {| api_username := "mapper"; api_password := "secret" |}
              3 "node" "850" eq_refl eq_refl ltac:(discriminate) eq_refl
              eq_refl Hs eq_refl (or_introl eq_refl) "409 Conflict")
    as (_ & _ & H & _).
  apply (H MoreSamples.upstream_sample); reflexivity.
Defined.

(** ** enrich.py, then upload.py *)

Section EnrichUpload.
Context {PN : PyNumber}.

(** X11: Enrich, then upload: an element with a non-zero id whose coordinate
    resolves and whose lookup gives a value comes out of [enrich_element]
    passing the four tests of [upload_element], as a node or a way, so
    that a dry run accepts it and a live upload never refuses its
    type. *)
Theorem upload_after_enrich (self : ElevationEnricher) (element : Element)
    (lat lon v : num) (w : enrich_world) :
  get_coordinates element = Ok (Some lat, Some lon) ->
  fst (get_elevation self lat lon w) = Ok (Some v) ->
  truthy_int (e_id element) = true ->
  exists element' w',
    enrich_element self element w = (Ok (Some element'), w')
    /\ uploadable element' = true
    /\ (e_type element' = Some "node"%string
        \/ e_type element' = Some "way"%string)
    /\ tags_of element' !! "ele"%string = Some (num_str (num_round1 v))
    /\ (forall uploader comment uw,
          dry_run uploader = true ->
          upload_element uploader element' comment uw
          = ((true, "Dry-run successful"%string), uw)).
Proof.
  intros Hc Hg Hid.
  destruct (enrich_element_resolved self element lat lon w Hc)
    as (el & Hg' & He).
  rewrite Hg' in Hg. injection Hg as ->.
  eexists. eexists. split; [exact He|].
  assert (Hty : e_type element = Some "node"%string
                \/ e_type element = Some "way"%string).
  { unfold get_coordinates, getitem_type in Hc.
    destruct (e_type element) as [t|]; [|discriminate].
    destruct (String.eqb t "node") eqn:E1;
      [apply String.eqb_eq in E1; subst; auto|].
    destruct (String.eqb t "way") eqn:E2;
      [apply String.eqb_eq in E2; subst; auto|discriminate]. }
  assert (Hu : uploadable (set_elevation element v) = true).
  { unfold uploadable, tags_of, set_elevation, dict_has. cbn.
    rewrite Hid. rewrite lookup_insert_ne by discriminate.
    rewrite !lookup_insert_eq.
    destruct Hty as [-> | ->]; reflexivity. }
  split; [exact Hu|]. split; [exact Hty|].
  split.
  { unfold tags_of, set_elevation. cbn.
    rewrite lookup_insert_ne by discriminate. apply lookup_insert_eq. }
  intros uploader comment uw Hd.
  rewrite (upload_element_dry uploader _ comment uw Hd), Hu.
  unfold dry_run_message. unfold uploadable in Hu.
  apply andb_true_iff in Hu as [Hu H4].
  apply andb_true_iff in Hu as [Hu H3].
  apply andb_true_iff in Hu as [H1 H2].
  now rewrite H1, H2, H3, H4.
Qed.

End EnrichUpload.

Lemma upload_after_enrich_witness :
  exists element' w',
    enrich_element Samples.enricher Samples.node_sample Samples.flat_world
    = (Ok (Some element'), w')
    /\ upload_element Samples.dry_uploader element' "Add elevation data"
         Samples.accepting_world
       = ((true, "Dry-run successful"%string), Samples.accepting_world).
Proof.
  destruct (@upload_after_enrich PyInt Samples.enricher Samples.node_sample
              45 25 850 Samples.flat_world eq_refl eq_refl eq_refl)
    as (element' & w' & He & _ & _ & _ & Hd).
  exists element', w'. split; [exact He|].
  apply Hd. reflexivity.
Defined.

(** ** csv_export.py *)

Section CsvSpec.
Context {PN : PyNumber}.

Lemma export_elements_loop_map (category : string) (elements : list Element)
    (rows : list csv_row) :
  export_elements_loop category elements rows
  = rows ++ List.map (fun e => {| row_category := category;
                                  row_info := get_element_info e |})
              elements.
Proof.
  revert rows. induction elements as [|e rest IH]; intros rows; simpl.
  - now rewrite app_nil_r.
  - now rewrite IH, <- app_assoc.
Qed.

Lemma export_rows_loop_concat (data : list (string * category_value))
    (rows : list csv_row) :
  export_rows_loop data rows = rows ++ List.concat (List.map category_rows data).
Proof.
  revert rows. induction data as [|[category value] rest IH]; intros rows;
    simpl.
  - now rewrite app_nil_r.
  - unfold category_rows at 1. simpl.
    destruct (category_elements value) as [elements|]; rewrite IH.
    + now rewrite export_elements_loop_map, <- app_assoc.
    + reflexivity.
Qed.

(** X22: [export_to_csv] writes one row per element, category after category
    in the order of the data and element after element within it, each
    with the name of its category; a category whose value is neither a
    list nor a dictionary with "valid_elements" gives no row.  It returns
    the number of rows.  When there is no row it returns 0 and writes
    nothing: a file of that name is left as it was. *)
Theorem export_to_csv_rows (data : list (string * category_value))
    (output_file : string) (csv : gmap string (list csv_row)) :
  let rows := List.concat (List.map category_rows data) in
  fst (export_to_csv data output_file csv) = Z.of_nat (length rows)
  /\ snd (export_to_csv data output_file csv)
     = match rows with
       | [] => csv
       | _ => <[output_file := rows]> csv
       end
  /\ (rows = [] ->
      export_to_csv data output_file csv = (0, csv))
  /\ (rows <> [] ->
      snd (export_to_csv data output_file csv) !! output_file = Some rows
      /\ forall other, other <> output_file ->
            snd (export_to_csv data output_file csv) !! other
            = csv !! other).
Proof.
  intros rows. unfold export_to_csv.
  rewrite export_rows_loop_concat. cbn [app]. fold rows.
  destruct rows as [|r rows']; cbn [fst snd length].
  - repeat split; auto. congruence.
  - repeat split; auto; try discriminate.
    + apply lookup_insert_eq.
    + intros other Ho. now apply lookup_insert_ne.
Qed.

(** X23: [get_element_info] never raises, and its coordinates are those of
    [get_coordinates] wherever that one returns: the node's own, the
    centre of a way, an absent one shown as the empty string; for an
    element without "type", where [get_coordinates] raises, the type and
    both coordinates are empty.  The link is built from the type and the
    id. *)
Theorem get_element_info_coordinates (element : Element) :
  (forall lat lon,
      get_coordinates element = Ok (lat, lon) ->
      info_lat (get_element_info element) = cell_of_num lat
      /\ info_lon (get_element_info element) = cell_of_num lon)
  /\ (e_type element = None ->
      get_coordinates element = Raise (KeyError "type")
      /\ info_type (get_element_info element) = ""%string
      /\ info_lat (get_element_info element) = CellStr ""
      /\ info_lon (get_element_info element) = CellStr "")
  /\ info_osm_link (get_element_info element)
     = ("https://www.openstreetmap.org/"
        ++ info_type (get_element_info element) ++ "/"
        ++ cell_str (info_id (get_element_info element)))%string.
Proof.
  split; [|split; [|reflexivity]].
  - intros lat lon. unfold get_coordinates, getitem_type, get_element_info.
    cbn [info_lat info_lon].
    destruct (e_type element) as [t|]; [|discriminate].
    destruct (String.eqb t "node"); [intros [= <- <-]; auto|].
    destruct (String.eqb t "way"); [|intros [= <- <-]; auto].
    destruct (e_center element); intros [= <- <-]; auto.
  - intros Hn. unfold get_coordinates, getitem_type, get_element_info.
    rewrite Hn. auto.
Qed.

(** X24: Enrich, then export: the row of an element [enrich_element] gave an
    elevation shows [str(round(v, 1))] as its elevation and "SRTM" as its
    source, and is otherwise the row of the element before enrichment. *)
Theorem export_after_enrich (self : ElevationEnricher) (element : Element)
    (lat lon v : num) (w : enrich_world) :
  get_coordinates element = Ok (Some lat, Some lon) ->
  fst (get_elevation self lat lon w) = Ok (Some v) ->
  exists element' w',
    enrich_element self element w = (Ok (Some element'), w')
    /\ get_element_info element'
       = {| info_type := info_type (get_element_info element);
            info_id := info_id (get_element_info element);
            info_name := info_name (get_element_info element);
            info_lat := CellNum lat;
            info_lon := CellNum lon;
            info_elevation := num_str (num_round1 v);
            info_elevation_source := "SRTM";
            info_tourism := info_tourism (get_element_info element);
            info_railway := info_railway (get_element_info element);
            info_osm_link := info_osm_link (get_element_info element) |}.
Proof.
  intros Hc Hg.
  destruct (enrich_element_resolved self element lat lon w Hc)
    as (el & Hg' & He).
  rewrite Hg' in Hg. injection Hg as ->.
  eexists. eexists. split; [exact He|].
  assert (Ht : forall k, k <> "ele"%string -> k <> "ele:source"%string ->
                 tags_of (set_elevation element v) !! k
                 = tags_of element !! k)
    by (intros; now apply set_elevation_other_tags).
  destruct (set_elevation_tags element v) as (tags & Etags & Hele & Hsrc).
  assert (Etg : tags_of (set_elevation element v) = tags)
    by (unfold tags_of; now rewrite Etags).
  pose proof (Ht "name"%string ltac:(discriminate) ltac:(discriminate)) as Hn.
  pose proof (Ht "ref"%string ltac:(discriminate) ltac:(discriminate)) as Hr.
  pose proof (Ht "tourism"%string ltac:(discriminate) ltac:(discriminate))
    as Hto.
  pose proof (Ht "railway"%string ltac:(discriminate) ltac:(discriminate))
    as Hra.
  unfold get_element_info at 1. unfold tag_or_empty.
  rewrite Hn, Hr, Hto, Hra. rewrite Etg, Hele, Hsrc.
  change (e_type (set_elevation element v)) with (e_type element).
  change (e_id (set_elevation element v)) with (e_id element).
  change (e_lat (set_elevation element v)) with (e_lat element).
  change (e_lon (set_elevation element v)) with (e_lon element).
  change (e_center (set_elevation element v)) with (e_center element).
  unfold get_element_info, tag_or_empty. cbn [info_type info_id info_name
    info_tourism info_railway info_osm_link].
  f_equal.
  - unfold get_coordinates, getitem_type in Hc.
    destruct (e_type element) as [t|]; [|discriminate].
    destruct (String.eqb t "node"); [injection Hc as -> ->; reflexivity|].
    destruct (String.eqb t "way"); [|discriminate].
    destruct (e_center element); [|discriminate].
    injection Hc as -> ->. reflexivity.
  - unfold get_coordinates, getitem_type in Hc.
    destruct (e_type element) as [t|]; [|discriminate].
    destruct (String.eqb t "node"); [injection Hc as -> ->; reflexivity|].
    destruct (String.eqb t "way"); [|discriminate].
    destruct (e_center element); [|discriminate].
    injection Hc as -> ->. reflexivity.
Qed.

End CsvSpec.

(** ** extract.py *)

Section ExtractSpec.
Context {PN : PyNumber}.

(** X25: [get_all_data] never raises and always returns both categories.
    It posts the two queries to the configured URL, the train stations
    first, and pauses once, for 2 seconds; the second query is posted
    whatever became of the first.  A category is the list under
    "elements" of its answer, and is empty when the request failed or the
    answer has no such key. *)
Theorem get_all_data_effects (self : OverpassExtractor) (w : extract_world) :
  let url := overpass_url self in
  let first := overpass w (posts w) url TrainStationsQuery in
  let second := overpass w (posts w ++ [(url, TrainStationsQuery)]) url
                  AccommodationsQuery in
  fst (get_all_data self w)
  = {| raw_train_stations := Some (elements_or_empty first);
       raw_accommodations := Some (elements_or_empty second) |}
  /\ posts (snd (get_all_data self w))
     = posts w ++ [(url, TrainStationsQuery); (url, AccommodationsQuery)]
  /\ pauses (snd (get_all_data self w)) = pauses w ++ [2]
  /\ overpass (snd (get_all_data self w)) = overpass w
  /\ (first = None -> raw_train_stations (fst (get_all_data self w))
                      = Some [])
  /\ (second = None -> raw_accommodations (fst (get_all_data self w))
                       = Some []).
Proof.
  intros url first second. subst url first second.
  unfold get_all_data, get_train_stations, get_accommodations, pause,
    _query_overpass. cbn. rewrite <- app_assoc. cbn.
  repeat split; auto.
  - now intros ->.
  - now intros ->.
Qed.

End ExtractSpec.

(** ** main.py *)

Section MainSpec.
Context {PN : PyNumber}.

Lemma osm_kept_ret {A} (a : A) : osm_kept (ret a).
Proof. intros w. reflexivity. Qed.

Lemma osm_kept_bind {A B} (c : M world A) (k : A -> M world B) :
  osm_kept c -> (forall a, osm_kept (k a)) -> osm_kept (bind c k).
Proof.
  intros Hc Hk w. unfold bind. specialize (Hc w).
  destruct (c w) as [[a|e] w1]; simpl in *; [|exact Hc].
  rewrite (Hk a w1). exact Hc.
Qed.

Lemma osm_kept_get_files : osm_kept get_files.
Proof. intros w. reflexivity. Qed.

Lemma osm_kept_put_files (f : files) : osm_kept (put_files f).
Proof. intros w. reflexivity. Qed.

Lemma osm_kept_lift_result {A} (r : result A) : osm_kept (lift_result r).
Proof. intros w. reflexivity. Qed.

Lemma osm_kept_lift_extract {A} (c : extract_world -> A * extract_world) :
  osm_kept (lift_extract c).
Proof.
  intros w. unfold lift_extract. now destruct (c (overpass_world w)).
Qed.

Lemma osm_kept_lift_enrich {A} (c : M enrich_world A) :
  osm_kept (lift_enrich c).
Proof.
  intros w. unfold lift_enrich. now destruct (c (elevation_world w)).
Qed.

Lemma osm_kept_when {A} (b : bool) (c : M world A) :
  osm_kept c -> osm_kept (when b c).
Proof.
  intros Hc. unfold when. destruct b; [|apply osm_kept_ret].
  apply osm_kept_bind; [exact Hc|]. intros. apply osm_kept_ret.
Qed.

Create HintDb kept.

#[local] Hint Resolve osm_kept_ret osm_kept_get_files osm_kept_put_files
  osm_kept_lift_result osm_kept_lift_extract osm_kept_lift_enrich : kept.

Ltac kept :=
  repeat first
    [ apply osm_kept_bind; [|intros]
    | apply osm_kept_when
    | solve [auto with kept] ].

Lemma osm_kept_run_extract : osm_kept run_extract.
Proof. unfold run_extract. kept. Qed.

Lemma osm_kept_run_filter : osm_kept run_filter.
Proof.
  unfold run_filter. kept. destruct (osm_data_raw a); kept.
Qed.

Lemma osm_kept_enrich_category (enricher : ElevationEnricher)
    (max_items : option Z) (name : string) (elements : list Element)
    (d : list (string * list Element)) :
  osm_kept (enrich_category enricher max_items name elements d).
Proof. unfold enrich_category. destruct elements; kept. Qed.

Lemma osm_kept_run_enrich (max_items : option Z) :
  osm_kept (run_enrich max_items).
Proof.
  unfold run_enrich. kept. destruct (osm_data_filtered a); kept;
    try apply osm_kept_enrich_category; kept.
Qed.

Lemma osm_kept_run_validate : osm_kept run_validate.
Proof.
  unfold run_validate. kept. destruct (osm_data_enriched a); kept.
Qed.

Lemma osm_kept_run_export_csv : osm_kept run_export_csv.
Proof.
  unfold run_export_csv. kept. destruct (osm_data_validated a); kept.
  destruct (export_to_csv _ _ _). kept.
Qed.

Lemma osm_kept_run_upload_dry (username password : option string) :
  osm_kept (run_upload true username password).
Proof.
  intros w. unfold run_upload, bind, get_files.
  destruct (osm_data_validated (fs w)) as [l|]; [|reflexivity].
  unfold lift_result, lift_upload. cbn [OSMUploader_init negb].
  pose proof (upload_all_dry_world
                {| dry_run := true; username := username;
                   password := password; api := None |}
                (List.map (fun kv => (fst kv, valid_elements (snd kv))) l)
                (osm_world w) eq_refl) as H.
  destruct (upload_all _ _ (osm_world w)) as [stats x]. simpl in *.
  exact H.
Qed.

Lemma main_upload_requested (args : Args) :
  main_upload args
  = if arg_all args || arg_upload args
    then RunUpload true (arg_username args) (arg_password args)
    else NotRequested.
Proof.
  unfold main_upload.
  destruct (arg_all args || arg_upload args); [|reflexivity].
  now destruct (arg_dry_run args).
Qed.

Lemma osm_kept_main_stages (args : Args) : osm_kept (main_stages args).
Proof.
  unfold main_stages.
  apply osm_kept_bind;
    [apply osm_kept_when, osm_kept_run_extract|intros _].
  apply osm_kept_bind;
    [apply osm_kept_when, osm_kept_run_filter|intros _].
  apply osm_kept_bind;
    [apply osm_kept_when, osm_kept_run_enrich|intros _].
  apply osm_kept_bind;
    [apply osm_kept_when, osm_kept_run_validate|intros _].
  apply osm_kept_bind;
    [apply osm_kept_when, osm_kept_run_export_csv|intros _].
  rewrite main_upload_requested.
  destruct (arg_all args || arg_upload args); [|apply osm_kept_ret].
  apply osm_kept_bind; [apply osm_kept_run_upload_dry|].
  intros. apply osm_kept_ret.
Qed.

(** X26: No run of [main] contacts the OSM store: whatever the command line
    and the state of the files and of the servers, the log of the calls
    made to the OSM API is the same after the run as before it. *)
Theorem main_never_contacts_store (args : Args) (w : world) :
  osm_world (snd (main args w)) = osm_world w
  /\ calls (osm_world (snd (main args w))) = calls (osm_world w).
Proof.
  assert (H : osm_world (snd (main args w)) = osm_world w).
  { unfold main. destruct (negb _); [reflexivity|].
    pose proof (osm_kept_main_stages args w) as H.
    destruct (main_stages args w) as [[o|e] w']; exact H. }
  split; [exact H|now rewrite H].
Qed.









Lemma bind_ok {W A B} (c : M W A) (k : A -> M W B) (w w' : W) (a : A) :
  c w = (Ok a, w') -> bind c k w = k a w'.
Proof. intros H. unfold bind. now rewrite H. Qed.




Lemma enrich_category_facts (enricher : ElevationEnricher)
    (max_items : option Z) (name : string) (elements : list Element)
    (d : list (string * list Element)) (w : world) :
  Forall (fun e => e_type e <> None) elements ->
  exists out x,
    enrich_category enricher max_items name elements d w
    = (Ok (d ++ category_item name elements out), with_elevation w x)
    /\ Forall2 enriched_from
         (reached max_items 0 (List.filter resolves elements)) out
    /\ length (lookups x)
       = (length (lookups (elevation_world w)) + length out)%nat
    /\ (elements = [] -> out = []).
Proof.
  intros Hty.
  destruct (enrich_elements_loop_spec enricher max_items elements Hty [] 0
              (elevation_world w)) as (out & x & Hrun & Hf & Hlk & _).
  exists out, x. destruct elements as [|e l].
  - simpl in Hrun. injection Hrun as <- <-.
    split; [|repeat split; auto].
    unfold enrich_category, category_item, ret. rewrite app_nil_r.
    now destruct w.
  - split; [|repeat split; auto; discriminate].
    unfold enrich_category, bind, lift_enrich, enrich_elements.
    rewrite Hrun. reflexivity.
Qed.

Lemma run_enrich_facts (max_items : option Z) (w : world)
    (data : filtered_data) :
  osm_data_filtered (fs w) = Some data ->
  Forall (fun e => e_type e <> None) (alpine_huts data) ->
  Forall (fun e => e_type e <> None) (train_stations data) ->
  Forall (fun e => e_type e <> None) (other_accommodations data) ->
  exists o1 o2 o3 x,
    run_enrich max_items w
    = (Ok (Some (category_item "alpine_huts" (alpine_huts data) o1
                 ++ category_item "train_stations" (train_stations data) o2
                 ++ category_item "other_accommodations"
                      (other_accommodations data) o3)),
       with_files (with_elevation w x)
         (write_enriched (fs w)
            (category_item "alpine_huts" (alpine_huts data) o1
             ++ category_item "train_stations" (train_stations data) o2
             ++ category_item "other_accommodations"
                  (other_accommodations data) o3)))
    /\ Forall2 enriched_from
         (reached max_items 0 (List.filter resolves (alpine_huts data))) o1
    /\ Forall2 enriched_from
         (reached max_items 0 (List.filter resolves (train_stations data)))
         o2
    /\ Forall2 enriched_from
         (reached max_items 0
            (List.filter resolves (other_accommodations data))) o3
    /\ length (lookups x)
       = (length (lookups (elevation_world w))
          + (length o1 + length o2 + length o3))%nat
    /\ (alpine_huts data = [] -> o1 = [])
    /\ (train_stations data = [] -> o2 = [])
    /\ (other_accommodations data = [] -> o3 = []).
Proof.
  intros Hf H1 H2 H3.
  set (enricher := ElevationEnricher_init "opentopo" (num_of_Z 1)).
  destruct (enrich_category_facts enricher max_items "alpine_huts"
              (alpine_huts data) [] w H1)
    as (o1 & x1 & E1 & F1 & L1 & N1).
  destruct (enrich_category_facts enricher max_items "train_stations"
              (train_stations data)
              ([] ++ category_item "alpine_huts" (alpine_huts data) o1)
              (with_elevation w x1) H2)
    as (o2 & x2 & E2 & F2 & L2 & N2).
  destruct (enrich_category_facts enricher max_items "other_accommodations"
              (other_accommodations data)
              (([] ++ category_item "alpine_huts" (alpine_huts data) o1)
               ++ category_item "train_stations" (train_stations data) o2)
              (with_elevation (with_elevation w x1) x2) H3)
    as (o3 & x3 & E3 & F3 & L3 & N3).
  exists o1, o2, o3, x3.
  split.
  { unfold run_enrich. rewrite (bind_ok get_files _ w w (fs w) eq_refl), Hf.
    fold enricher. cbv zeta.
    rewrite (bind_ok _ _ _ _ _ E1), (bind_ok _ _ _ _ _ E2),
      (bind_ok _ _ _ _ _ E3).
    cbn [app]. rewrite <- app_assoc. reflexivity. }
  cbn [elevation_world with_elevation] in L2, L3.
  repeat split; auto. lia.
Qed.

Lemma category_item_length (name : string) (elements out : list Element) :
  (elements = [] -> out = []) ->
  length (List.concat (List.map snd (category_item name elements out)))
  = length out.
Proof.
  intros H. destruct elements; simpl.
  - now rewrite H.
  - now rewrite app_nil_r.
Qed.

Lemma reached_limit_length (m : Z) (l out : list Element) :
  1 <= m ->
  Forall2 enriched_from (reached (Some m) 0 l) out ->
  (length out <= Z.to_nat m)%nat.
Proof.
  intros Hm Hf. apply Forall2_length in Hf. rewrite <- Hf.
  unfold reached. replace (m =? 0) with false by lia.
  rewrite length_take. lia.
Qed.

(** X28: The limit of [run_enrich] is applied to each category on its own.
    With [--limit m], [m] at least 1, on a filtered snapshot whose
    elements carry their "type", the stage never raises and writes the
    enriched snapshot with the categories whose list was not empty, alpine
    huts first, then train stations, then the other accommodations, each
    holding at most [m] elements; it sends one lookup per element
    written, so up to [3 m] in all. *)
Theorem run_enrich_limit (m : Z) (w : world) (data : filtered_data) :
  1 <= m ->
  osm_data_filtered (fs w) = Some data ->
  Forall (fun e => e_type e <> None) (alpine_huts data) ->
  Forall (fun e => e_type e <> None) (train_stations data) ->
  Forall (fun e => e_type e <> None) (other_accommodations data) ->
  exists enriched w',
    run_enrich (Some m) w = (Ok (Some enriched), w')
    /\ osm_data_enriched (fs w') = Some enriched
    /\ List.map fst enriched
       = List.map fst
           (category_item "alpine_huts" (alpine_huts data) tt
            ++ category_item "train_stations" (train_stations data) tt
            ++ category_item "other_accommodations"
                 (other_accommodations data) tt)
    /\ Forall (fun kv => (length (snd kv) <= Z.to_nat m)%nat) enriched
    /\ length (lookups (elevation_world w'))
       = (length (lookups (elevation_world w))
          + length (List.concat (List.map snd enriched)))%nat
    /\ osm_world w' = osm_world w.
Proof.
  intros Hm Hf H1 H2 H3.
  destruct (run_enrich_facts (Some m) w data Hf H1 H2 H3)
    as (o1 & o2 & o3 & x & Hrun & F1 & F2 & F3 & Hlk & N1 & N2 & N3).
  eexists. eexists. split; [exact Hrun|].
  split; [reflexivity|].
  pose proof (reached_limit_length m _ _ Hm F1) as B1.
  pose proof (reached_limit_length m _ _ Hm F2) as B2.
  pose proof (reached_limit_length m _ _ Hm F3) as B3.
  split.
  { unfold category_item.
    destruct (alpine_huts data), (train_stations data),
      (other_accommodations data); reflexivity. }
  split.
  { unfold category_item.
    destruct (alpine_huts data), (train_stations data),
      (other_accommodations data); repeat constructor; assumption. }
  split; [|reflexivity].
  cbn [elevation_world with_files with_elevation].
  rewrite !List.map_app, !List.concat_app, !length_app,
    !category_item_length by assumption.
  lia.
Qed.

Lemma validate_all_loop_map (self : ElevationValidator)
    (data : list (string * list Element))
    (results : list (string * validate_result)) :
  validate_all_loop self data results
  = results
    ++ List.map (fun kv => (fst kv, validate_elements self (snd kv)))
         (List.filter has_elements data).
Proof.
  revert results.
  induction data as [|[category elements] rest IH]; intros results; simpl.
  - now rewrite app_nil_r.
  - destruct elements as [|e l]; cbn [has_elements snd]; rewrite IH.
    + reflexivity.
    + now rewrite <- app_assoc.
Qed.

Lemma run_validate_run (w : world) (data : list (string * list Element)) :
  osm_data_enriched (fs w) = Some data ->
  run_validate w
  = (Ok (Some (validate_all_loop ElevationValidator_default data [])),
     with_files w
       (write_validated (fs w)
          (List.map (fun kv => (fst kv, entry_of (snd kv)))
             (validate_all_loop ElevationValidator_default data [])))).
Proof.
  intros H. unfold run_validate.
  rewrite (bind_ok get_files _ w w (fs w) eq_refl), H. reflexivity.
Qed.

(** X29: The snapshot [run_validate] writes has one entry for each category of
    the enriched snapshot whose list is not empty, in the same order.
    The entry holds the elements that are valid for the bounds 0 and
    2600, in their order; its [valid_count] is their number, and
    [valid_count] and [invalid_count] add up to the length of the
    category's list.  The other files are left as they were. *)
Theorem run_validate_snapshot (w : world)
    (data : list (string * list Element)) :
  osm_data_enriched (fs w) = Some data ->
  exists results output,
    run_validate w
    = (Ok (Some results), with_files w (write_validated (fs w) output))
    /\ List.map fst results = List.map fst output
    /\ Forall2
         (fun kv entry =>
            fst entry = fst kv
            /\ valid_elements (snd entry)
               = List.filter (is_valid ElevationValidator_default) (snd kv)
            /\ valid_count (snd entry)
               = Z.of_nat (length (valid_elements (snd entry)))
            /\ valid_count (snd entry) + invalid_count (snd entry)
               = Z.of_nat (length (snd kv)))
         (List.filter has_elements data) output.
Proof.
  intros H. eexists. eexists. split; [apply (run_validate_run w data H)|].
  rewrite validate_all_loop_map. cbn [app].
  rewrite !List.map_map. cbn [fst snd]. split; [reflexivity|].
  induction (List.filter has_elements data) as [|[c l] rest IH];
    cbn [List.map]; constructor; [|exact IH].
  cbn [fst snd entry_of valid_elements valid_count invalid_count].
  split; [reflexivity|].
  split.
  { unfold validate_elements. now rewrite validate_elements_loop_filter. }
  split; [reflexivity|].
  pose proof (validate_elements_count ElevationValidator_default l). lia.
Qed.








End MainSpec.

Lemma export_after_enrich_witness :
  exists element' w',
    enrich_element Samples.enricher Samples.node_sample Samples.flat_world
    = (Ok (Some element'), w')
    /\ info_elevation (get_element_info element') = "850"%string
    /\ info_elevation_source (get_element_info element') = "SRTM"%string
    /\ info_railway (get_element_info element') = "station"%string.
Proof.
  destruct (@export_after_enrich PyInt Samples.enricher Samples.node_sample
              45 25 850 Samples.flat_world eq_refl eq_refl)
    as (element' & w' & He & Hi).
  exists element', w'. split; [exact He|].
  rewrite Hi. repeat split.
Defined.


Lemma run_enrich_limit_witness :
  exists enriched w',
    run_enrich (Some 1) (MoreSamples.world_with MoreSamples.filtered_files)
    = (Ok (Some enriched), w')
    /\ List.map fst enriched = ["alpine_huts"%string; "train_stations"%string]
    /\ Forall (fun kv => (length (snd kv) <= 1)%nat) enriched
    /\ length (lookups (elevation_world w')) = 2%nat.
Proof.
  destruct (@run_enrich_limit PyInt 1
              (MoreSamples.world_with MoreSamples.filtered_files)
              {| train_stations := [Samples.node_sample; Samples.node_sample];
                 alpine_huts :=
                   [Samples.way_hut_sample; Samples.way_hut_sample];
                 other_accommodations := [] |}
              ltac:(lia) eq_refl ltac:(all_typed) ltac:(all_typed)
              ltac:(constructor))
    as (enriched & w' & Hrun & _ & Hn & Hb & Hlk & _).
  exists enriched, w'. split; [exact Hrun|].
  split; [exact Hn|]. split; [exact Hb|].
  rewrite Hlk.
  assert (E : fst (run_enrich (Some 1)
                     (MoreSamples.world_with MoreSamples.filtered_files))
              = Ok (Some enriched)) by (now rewrite Hrun).
  vm_compute in E. injection E as <-. reflexivity.
Defined.

Lemma run_validate_snapshot_witness :
  exists results output,
    run_validate (MoreSamples.world_with MoreSamples.enriched_files)
    = (Ok (Some results),
       with_files (MoreSamples.world_with MoreSamples.enriched_files)
         (write_validated MoreSamples.enriched_files output))
    /\ List.map fst output = ["alpine_huts"%string].
Proof.
  destruct (@run_validate_snapshot PyInt
              (MoreSamples.world_with MoreSamples.enriched_files)
              [("alpine_huts"%string,
                [Samples.tagged_sample; Samples.high_sample]);
               ("train_stations"%string, [])] eq_refl)
    as (results & output & Hrun & _ & Hf).
  exists results, output. split; [exact Hrun|].
  cbn in Hf. inversion Hf as [|kv entry l l' [Hk _] Hrest]; subst.
  inversion Hrest; subst. cbn. now rewrite Hk.
Defined.


(** ** The whole pipeline, run on the samples *)

Module PipelineScenarios.
Import Samples MoreSamples.
#[local] Existing Instance PyInt.

Example info_of_way :
  get_element_info way_hut_sample
  = {| info_type := "way"; info_id := CellInt 2; info_name := "";
       info_lat := CellNum 46; info_lon := CellNum 24;
       info_elevation := ""; info_elevation_source := "";
       info_tourism := "alpine_hut"; info_railway := "";
       info_osm_link := "https://www.openstreetmap.org/way/2" |}.
Proof. reflexivity. Qed.

Example export_nothing :
  export_to_csv [("alpine_huts"%string, CatElements []);
                 ("notes"%string, CatOther)] "out.csv" ∅
  = (0, ∅).
Proof. reflexivity. Qed.

Example all_stages_with_limit_one :
  let '(o, w) := main all_limit_one (world_with empty_files) in
  o = Completed
  /\ List.map (fun kv => (fst kv, length (snd kv)))
       (match osm_data_enriched (fs w) with
        | Some d => d
        | None => []
        end)
     = [("alpine_huts"%string, 1%nat); ("train_stations"%string, 1%nat)]
  /\ List.map (fun kv => (fst kv, valid_count (snd kv),
                          invalid_count (snd kv)))
       (match osm_data_validated (fs w) with
        | Some d => d
        | None => []
        end)
     = [("alpine_huts"%string, 1, 0); ("train_stations"%string, 1, 0)]
  /\ List.map (fun r => (row_category r, info_elevation (row_info r)))
       (match csv_files (fs w) !! "elevation_data.csv"%string with
        | Some rows => rows
        | None => []
        end)
     = [("alpine_huts"%string, "850"%string);
        ("train_stations"%string, "850"%string)]
  /\ length (lookups (elevation_world w)) = 2%nat
  /\ posts (overpass_world w)
     = [("https://overpass-api.de/api/interpreter"%string,
         TrainStationsQuery);
        ("https://overpass-api.de/api/interpreter"%string,
         AccommodationsQuery)]
  /\ calls (osm_world w) = [].
Proof. vm_compute. repeat split. Qed.

Example filter_without_raw_snapshot :
  main filter_only (world_with empty_files)
  = (Completed, world_with empty_files).
Proof. reflexivity. Qed.

End PipelineScenarios.
